(** * Transcript post-processing of the clinical consultation tool

    A shallow embedding of [run_consultation] from [app.py]: the
    precondition checks, the sequence of calls into the conversation
    engine, the display-list loop and the backward scan for the final
    plan, together with the string methods of Python they rely on.

    Conventions of the embedding.
    - A Python [str] is a [string]; a character stands for the code point
      of the same number (0..255).
    - A message of [groupchat.messages] is a Python [dict] with string
      keys and string values; it is a [gmap string string].  [msg['k']]
      is a lookup that raises [KeyError]; [msg.get('k', d)] is a lookup
      with a default.
    - The round limit is an integer, on which [int(...)] is the
      identity.
    - Code that can raise returns a [result]; the [try ... except
      Exception] of [run_consultation] is a handler on that type.
    - The conversation engine and the other libraries are not part of the
      program: a [World] answers each call made to them. *)

From Stdlib Require Import ZArith Ascii String List Bool Lia.
From stdpp Require Import base option gmap strings list fin_maps.


(** ** Python string methods *)

Module PyStr.

(** [str.isspace] on one character: the code points below 256 that
    Python classifies as whitespace (9-13, 28-32, 133, 160). *)
Definition isspace (c : ascii) : bool :=
  match c with
  | "009" | "010" | "011" | "012" | "013"
  | "028" | "029" | "030" | "031" | " "
  | "133" | "160" => true
  | _ => false
  end%char.

(** Truth value of a [str]: the empty string is false. *)
Definition truthy (s : string) : bool :=
  match s with
  | EmptyString => false
  | String _ _ => true
  end.

Fixpoint lstrip (s : string) : string :=
  match s with
  | EmptyString => EmptyString
  | String c rest => if isspace c then lstrip rest else s
  end.

Fixpoint rstrip (s : string) : string :=
  match s with
  | EmptyString => EmptyString
  | String c rest =>
      match rstrip rest with
      | EmptyString => if isspace c then EmptyString else String c EmptyString
      | r => String c r
      end
  end.

(** [s.strip()] with no argument. *)
Definition strip (s : string) : string := rstrip (lstrip s).

(** [s.startswith(sub)]. *)
Fixpoint startswith (sub s : string) : bool :=
  match sub, s with
  | EmptyString, _ => true
  | String _ _, EmptyString => false
  | String a sub', String b s' => Ascii.eqb a b && startswith sub' s'
  end.

(** [sub in s]. *)
Fixpoint contains (sub s : string) : bool :=
  startswith sub s
  || match s with
     | EmptyString => false
     | String _ rest => contains sub rest
     end.

(** [s.find(sub)]: the lowest offset of an occurrence, [None] for -1. *)
Fixpoint find (sub s : string) : option nat :=
  if startswith sub s then Some 0
  else match s with
       | EmptyString => None
       | String _ rest => option_map S (find sub rest)
       end.

(** The scan of [s.replace(old, new)] for a non-empty [old]: [skip] is
    the number of characters of the current occurrence still to pass. *)
Fixpoint replace_scan (old new s : string) (skip : nat) : string :=
  match s with
  | EmptyString => EmptyString
  | String c rest =>
      match skip with
      | S k => replace_scan old new rest k
      | O =>
          if startswith old s
          then new +:+ replace_scan old new rest (String.length old - 1)
          else String c (replace_scan old new rest 0)
      end
  end.

(** With an empty [old], [new] is put before every character and at
    the end. *)
Fixpoint interleave (new s : string) : string :=
  match s with
  | EmptyString => new
  | String c rest => new +:+ String c (interleave new rest)
  end.

(** [s.replace(old, new)]: every occurrence found by a left-to-right
    scan that resumes after each match. *)
Definition replace (old new s : string) : string :=
  match old with
  | EmptyString => interleave new s
  | String _ _ => replace_scan old new s 0
  end.

(** All characters of [s] are whitespace. *)
Fixpoint all_space (s : string) : bool :=
  match s with
  | EmptyString => true
  | String c rest => isspace c && all_space rest
  end.

Definition first_char (s : string) : option ascii :=
  match s with
  | EmptyString => None
  | String c _ => Some c
  end.

Fixpoint last_char (s : string) : option ascii :=
  match s with
  | EmptyString => None
  | String c EmptyString => Some c
  | String _ rest => last_char rest
  end.

(** Concatenation of a list of strings, and [sep.join(parts)]. *)
Fixpoint concat (parts : list string) : string :=
  match parts with
  | [] => EmptyString
  | p :: ps => p +:+ concat ps
  end.

Fixpoint join (sep : string) (parts : list string) : string :=
  match parts with
  | [] => EmptyString
  | [p] => p
  | p :: ps => p +:+ sep +:+ join sep ps
  end.

(** The scan of [s.split(sep)] for a non-empty [sep]: the first string
    of the result is the part in progress; [skip] is as in
    [replace_scan]. *)
Fixpoint split_scan (sep s : string) (skip : nat) : list string :=
  match s with
  | EmptyString => [EmptyString]
  | String c rest =>
      match skip with
      | S k => split_scan sep rest k
      | O =>
          if startswith sep s
          then EmptyString :: split_scan sep rest (String.length sep - 1)
          else match split_scan sep rest 0 with
               | p :: ps => String c p :: ps
               | [] => [String c EmptyString]
               end
      end
  end.

(** [s.split(sep)], for a non-empty [sep] (Python raises [ValueError]
    on an empty one). *)
Definition split (sep s : string) : list string := split_scan sep s 0.

(** [parts] is the way a left-to-right scan cuts a string at the
    occurrences of [old]: in every part but the last, followed by
    [old], the first occurrence of [old] is the one that follows the
    part; the last part has no occurrence. *)
Fixpoint scan_split (old : string) (parts : list string) : bool :=
  match parts with
  | [] => true
  | [p] => negb (contains old p)
  | p :: ps =>
      match find old (p +:+ old) with
      | Some n => Nat.eqb n (String.length p)
      | None => false
      end && scan_split old ps
  end.

End PyStr.

(** ** Exceptions and results *)

(** The exceptions the handler of [run_consultation] catches
    ([except Exception]): a [KeyError] of the program's own subscripts,
    or an error raised inside a library call, known by its text. *)
Inductive exception : Type :=
  | KeyError (key : string)
  | ExternalError (text : string).

(** [str(e)]: a [KeyError] prints its key quoted. *)
Definition exc_str (e : exception) : string :=
  match e with
  | KeyError key => "'" +:+ key +:+ "'"
  | ExternalError text => text
  end.

Inductive result (A : Type) : Type :=
  | Ok (a : A)
  | Raise (e : exception).
Arguments Ok {A} a.
Arguments Raise {A} e.

#[global] Instance result_ret : MRet result := fun A a => Ok a.
#[global] Instance result_bind : MBind result := fun A B f m =>
  match m with
  | Ok a => f a
  | Raise e => Raise e
  end.

(** ** Messages *)

(** One entry of [groupchat.messages]. *)
Abbreviation message := (gmap string string).

(** [msg[key]] *)
Definition subscript (msg : message) (key : string) : result string :=
  match msg !! key with
  | Some v => Ok v
  | None => Raise (KeyError key)
  end.

(** [msg.get(key, dflt)] *)
Definition get (msg : message) (key dflt : string) : string :=
  default dflt (msg !! key).

(** [msg.get('name') == masoud_name]: a missing name is [None], which
    equals no string. *)
Definition name_is (msg : message) (masoud_name : string) : bool :=
  match msg !! "name" with
  | Some n => String.eqb n masoud_name
  | None => false
  end.

(** ** The transcript formatter *)

Definition nl : string := String "010" EmptyString.

Definition header : string := "PATIENT SCENARIO".
Definition marker : string := "--- FINAL PLAN ---".
Definition fallback : string :=
  "Final plan not generated or found in the conversation.".
Definition scenario_label : string := "**Patient Scenario Input**".

(** [f"**{speaker_name}**"] *)
Definition bold (speaker_name : string) : string :=
  "**" +:+ speaker_name +:+ "**".

(** The loop over [chat_history] that fills [formatted_history]. *)
Fixpoint format_history (patient_scenario : string)
    (chat_history : list message) (formatted_history : list (string * string))
    : result (list (string * string)) :=
  match chat_history with
  | [] => Ok formatted_history
  | msg :: rest =>
      role ← subscript msg "role";
      if String.eqb role "user" then
        content ← subscript msg "content";
        if PyStr.contains header content
        then format_history patient_scenario rest
               (formatted_history ++ [(scenario_label, patient_scenario)])
        else format_history patient_scenario rest formatted_history
      else
        let speaker_name := get msg "name" "Moderator" in
        let content := PyStr.strip (get msg "content" "") in
        if PyStr.truthy content
        then format_history patient_scenario rest
               (formatted_history ++ [(bold speaker_name, content)])
        else format_history patient_scenario rest formatted_history
  end.

(** The test of the backward scan:
    [msg.get('name') == masoud_name and marker in msg.get('content', '')]. *)
Definition is_final_plan (masoud_name : string) (msg : message) : bool :=
  name_is msg masoud_name && PyStr.contains marker (get msg "content" "").

(** The loop over [reversed(chat_history)]; it stops at the first
    message that passes the test. *)
Fixpoint final_plan_scan (masoud_name : string) (msgs : list message)
    (final_plan : string) : result string :=
  match msgs with
  | [] => Ok final_plan
  | msg :: rest =>
      if is_final_plan masoud_name msg
      then
        content ← subscript msg "content";
        Ok (PyStr.strip (PyStr.replace marker "" content))
      else final_plan_scan masoud_name rest final_plan
  end.

Definition extract_final_plan (masoud_name : string)
    (chat_history : list message) : result string :=
  final_plan_scan masoud_name (rev chat_history) fallback.

(** ** Calls into the libraries *)

(** One entry of [config_list]; [llm_config] adds the constants
    [temperature = 0.7] and [cache_seed = None] to it. *)
Record llm_config : Type := {
  model : string;
  api_key_of : string;
  api_type : string
}.

Inductive call : Type :=
  | SetEnviron (key value : string)
  | GenaiConfigure (api_key : string)
  | ConversableAgent (name system_message : string) (cfg : llm_config)
  | UserProxyAgent (name : string)
  | GroupChat (agents : list string) (max_round : Z)
  | GroupChatManager (cfg : llm_config)
  | InitiateChat (message : string).

(** What lies outside the program: whether a call raises, given the
    calls made before it; the messages the group chat holds after the
    exchange; and the text [traceback.format_exc()] gives in the
    handler. *)
Record World : Type := {
  raises : list call -> call -> option exception;
  messages : list call -> list message;
  format_exc : exception -> string
}.

(** Computations that log their calls and may raise. *)
Definition M (A : Type) : Type := list call -> list call * result A.

#[global] Instance M_ret : MRet M := fun A a log => (log, Ok a).
#[global] Instance M_bind : MBind M := fun A B f m log =>
  match m log with
  | (log', Ok a) => f a log'
  | (log', Raise e) => (log', Raise e)
  end.

Definition perform (w : World) (c : call) : M unit := fun log =>
  (log ++ [c], match raises w log c with
               | Some e => Raise e
               | None => Ok tt
               end).

Definition chat_messages (w : World) : M (list message) := fun log =>
  (log, Ok (messages w log)).

Definition lift {A} (r : result A) : M A := fun log => (log, r).

(** ** The orchestrator *)

Definition missing_key_message : string :=
  "**Error: API Key is missing.** Please go to the Settings tab and enter your Google API Key.".

Definition empty_scenario_message : string :=
  "**Error: Patient Scenario is empty.** Please enter the patient details to start.".

Definition indent : string := "        ".

Definition initial_message (masoud_name patient_scenario : string) : string :=
  nl +:+ indent +:+ "Hello team. Here is the patient case for today's consultation."
  +:+ nl +:+ indent +:+ "Please discuss your approaches to diagnosis and management based on your specialties."
  +:+ nl +:+ indent +:+ "The goal is to arrive at a consensus plan."
  +:+ nl +:+ indent +:+ masoud_name +:+ ", please moderate and provide the final summary plan at the end."
  +:+ nl
  +:+ nl +:+ indent +:+ "--- PATIENT SCENARIO ---"
  +:+ nl +:+ indent +:+ patient_scenario
  +:+ nl +:+ indent.

Definition error_message (w : World) (e : exception) : string :=
  "An error occurred: " +:+ exc_str e +:+ nl +:+ nl
  +:+ "Common issues:" +:+ nl
  +:+ "- Invalid or expired Google API key." +:+ nl
  +:+ "- Ensure the model name 'gemini-1.5-flash-latest' is correct and you have access." +:+ nl
  +:+ "- Network connectivity issues." +:+ nl +:+ nl
  +:+ "Traceback:" +:+ nl +:+ format_exc w e.

Definition output : Type := (list (string * string) * string)%type.

(** The end of the [try] block: the messages of the group chat are
    formatted and searched, and the pair is returned. *)
Definition process_output (w : World) (patient_scenario masoud_name : string)
    : M output :=
  chat_history ← chat_messages w;
  formatted_history ← lift (format_history patient_scenario chat_history []);
  final_plan ← lift (extract_final_plan masoud_name chat_history);
  mret (formatted_history, final_plan).

(** The body of the [try] block. *)
Definition consultation (w : World) (api_key : string) (max_rounds : Z)
    (patient_scenario : string)
    (james_name james_prompt david_name david_prompt
     jones_name jones_prompt masoud_name masoud_prompt : string) : M output :=
  perform w (SetEnviron "GOOGLE_API_KEY" api_key);;
  perform w (GenaiConfigure api_key);;
  let cfg := {| model := "gemini-1.5-flash-latest";
                api_key_of := api_key;
                api_type := "google" |} in
  perform w (ConversableAgent james_name james_prompt cfg);;
  perform w (ConversableAgent david_name david_prompt cfg);;
  perform w (ConversableAgent jones_name jones_prompt cfg);;
  perform w (ConversableAgent masoud_name masoud_prompt cfg);;
  perform w (UserProxyAgent "User_Proxy");;
  perform w (GroupChat ["User_Proxy"; james_name; david_name; jones_name; masoud_name]
                       max_rounds);;
  perform w (GroupChatManager cfg);;
  perform w (InitiateChat (initial_message masoud_name patient_scenario));;
  process_output w patient_scenario masoud_name.

(** [run_consultation]: the calls it made, and the pair it returns. *)
Definition run_consultation (w : World) (api_key : string) (max_rounds : Z)
    (patient_scenario : string)
    (james_name james_prompt david_name david_prompt
     jones_name jones_prompt masoud_name masoud_prompt : string)
    : list call * output :=
  if negb (PyStr.truthy api_key) then ([], ([], missing_key_message))
  else if negb (PyStr.truthy (PyStr.strip patient_scenario))
  then ([], ([], empty_scenario_message))
  else
    match consultation w api_key max_rounds patient_scenario
            james_name james_prompt david_name david_prompt
            jones_name jones_prompt masoud_name masoud_prompt []
    with
    | (log, Ok out) => (log, out)
    | (log, Raise e) => (log, ([], error_message w e))
    end.

(** ** The settings of the user interface *)

(** [gr.Slider(minimum=2, maximum=10, value=5, step=1)], the input that
    supplies [max_rounds]. *)
Record slider : Type := {
  minimum : Z;
  maximum : Z;
  value : Z;
  step : Z
}.

Definition max_rounds_slider : slider :=
  {| minimum := 2; maximum := 10; value := 5; step := 1 |}.

(** ** Notions used to state the properties *)

(** A Turn attributed to the input-submitter: its role is ['user']. *)
Definition is_submitter (msg : message) : bool :=
  match msg !! "role" with
  | Some role => String.eqb role "user"
  | None => false
  end.

(** A submitter Turn whose content includes the case-injection header. *)
Definition is_injection (msg : message) : bool :=
  is_submitter msg && PyStr.contains header (get msg "content" "").

(** What one Turn adds to the display list, as the specification words
    it: the case text under the scenario label for an injection, nothing
    for another submitter Turn, and for any other Turn its label with
    its trimmed content unless that is empty. *)
Definition display_turn (patient_scenario : string) (msg : message)
    : list (string * string) :=
  if is_submitter msg then
    if PyStr.contains header (get msg "content" "")
    then [(scenario_label, patient_scenario)]
    else []
  else
    let content := PyStr.strip (get msg "content" "") in
    if PyStr.truthy content
    then [(bold (get msg "name" "Moderator"), content)]
    else [].

(** The fields the display loop reads with a subscript are present: the
    role of every Turn, and the content of a submitter Turn. *)
Definition has_subscripts (msg : message) : bool :=
  match msg !! "role" with
  | Some role =>
      if String.eqb role "user" then bool_decide (is_Some (msg !! "content"))
      else true
  | None => false
  end.

(** An agent Turn that is displayed under the scenario label because the
    agent bears that name. *)
Definition bears_scenario_label (msg : message) : bool :=
  negb (is_submitter msg)
  && PyStr.truthy (PyStr.strip (get msg "content" ""))
  && String.eqb (bold (get msg "name" "Moderator")) scenario_label.

(** The pairs of a display list under a given label. *)
Definition labelled (label : string) (d : list (string * string))
    : list (string * string) :=
  List.filter (fun entry => String.eqb (fst entry) label) d.

(** No message of [msgs] passes the test of the backward scan. *)
Definition no_final_plan (masoud_name : string) (msgs : list message) : bool :=
  forallb (fun msg => negb (is_final_plan masoud_name msg)) msgs.

(** The calls of the [try] block, in program order. *)
Definition plan (api_key : string) (max_rounds : Z) (patient_scenario : string)
    (james_name james_prompt david_name david_prompt
     jones_name jones_prompt masoud_name masoud_prompt : string) : list call :=
  let cfg := {| model := "gemini-1.5-flash-latest";
                api_key_of := api_key;
                api_type := "google" |} in
  [ SetEnviron "GOOGLE_API_KEY" api_key;
    GenaiConfigure api_key;
    ConversableAgent james_name james_prompt cfg;
    ConversableAgent david_name david_prompt cfg;
    ConversableAgent jones_name jones_prompt cfg;
    ConversableAgent masoud_name masoud_prompt cfg;
    UserProxyAgent "User_Proxy";
    GroupChat ["User_Proxy"; james_name; david_name; jones_name; masoud_name]
              max_rounds;
    GroupChatManager cfg;
    InitiateChat (initial_message masoud_name patient_scenario) ].

(** The calls of [cs] made one after the other; the first that raises
    ends the sequence. *)
Fixpoint perform_all (w : World) (cs : list call) : M unit :=
  match cs with
  | [] => mret tt
  | c :: rest => perform w c;; perform_all w rest
  end.

(** In world [w], call number [k] of [cs] is the first to raise, and it
    raises [e]. *)
Definition first_raise (w : World) (cs : list call) (k : nat) (e : exception)
    : Prop :=
  (exists c, cs !! k = Some c /\ raises w (take k cs) c = Some e)
  /\ (forall j c, j < k -> cs !! j = Some c -> raises w (take j cs) c = None).

(** A world in which no call raises. *)
Definition quiet (w : World) : Prop :=
  forall log c, raises w log c = None.

(** In world [w], none of the calls of [cs], made in order, raises. *)
Definition never_raises (w : World) (cs : list call) : Prop :=
  forall j c, cs !! j = Some c -> raises w (take j cs) c = None.

(** Two messages hold the same value, or both none, under each of
    [keys]. *)
Definition same_fields (keys : list string) (a b : message) : Prop :=
  Forall (fun key => a !! key = b !! key) keys.

(** ** Sample transcripts and worlds *)

Module Sample.

Definition case_text : string := "17-year-old with fever, rash and joint pain".

(** The opening message as the group chat records it. *)
Definition turn_case : message :=
  {[ "role" := "user"; "name" := "User_Proxy";
     "content" := initial_message "Masoud" case_text ]}.

(** A submitter Turn that quotes the header again. *)
Definition turn_echo : message :=
  {[ "role" := "user"; "name" := "User_Proxy";
     "content" := "As stated under PATIENT SCENARIO, he is 17." ]}.

(** A submitter Turn without the header. *)
Definition turn_thanks : message :=
  {[ "role" := "user"; "name" := "User_Proxy"; "content" := "Thank you." ]}.

Definition turn_james : message :=
  {[ "role" := "assistant"; "name" := "James";
     "content" := "  Consider acute rheumatic fever. " ]}.

Definition turn_blank : message :=
  {[ "role" := "assistant"; "name" := "David"; "content" := "   " ]}.

Definition turn_unnamed : message :=
  {[ "role" := "assistant"; "content" := "Any other views?" ]}.

Definition turn_draft : message :=
  {[ "role" := "assistant"; "name" := "Masoud";
     "content" := "--- FINAL PLAN --- (draft) Diagnosis: pending" ]}.

Definition turn_plan : message :=
  {[ "role" := "assistant"; "name" := "Masoud";
     "content" := "--- FINAL PLAN ---" +:+ nl +:+ "Diagnosis: X" ]}.

(** The marker twice, around and between other text. *)
Definition turn_plan_twice : message :=
  {[ "role" := "assistant"; "name" := "Masoud";
     "content" := PyStr.join marker [" Summary "; " Diagnosis: X "; " done "] ]}.

(** Another speaker uses the marker. *)
Definition turn_quote : message :=
  {[ "role" := "assistant"; "name" := "Jones";
     "content" := "I await the --- FINAL PLAN --- from Masoud." ]}.

(** A message without a role. *)
Definition turn_no_role : message :=
  {[ "name" := "James"; "content" := "Consider acute rheumatic fever." ]}.

Definition transcript : list message :=
  [turn_case; turn_james; turn_blank; turn_unnamed; turn_thanks; turn_plan].

(** A transcript in which the submitter speaks again and quotes the
    header. *)
Definition transcript_echo : list message :=
  [turn_case; turn_james; turn_echo].

(** A transcript with a message that has no role. *)
Definition transcript_no_role : list message :=
  [turn_case; turn_no_role].

(** No call raises; the group chat holds [transcript]. *)
Definition quiet_world : World :=
  {| raises := fun _ _ => None;
     messages := fun _ => transcript;
     format_exc := fun _ => "Traceback (most recent call last): ..." |}.

(** The exchange fails: [initiate_chat] raises. *)
Definition failing_world : World :=
  {| raises := fun _ c =>
       match c with
       | InitiateChat _ => Some (ExternalError "400 API key not valid.")
       | _ => None
       end;
     messages := fun _ => [];
     format_exc := fun _ => "Traceback (most recent call last): ..." |}.

(** A run with fixed names and prompts, and the calls it plans. *)
Definition run_with (w : World) (api_key : string) (max_rounds : Z)
    (patient_scenario : string) : list call * output :=
  run_consultation w api_key max_rounds patient_scenario
    "James" "You are Dr. James." "David" "You are Dr. David."
    "Jones" "You are Dr. Jones." "Masoud" "You are Masoud, the moderator.".

Definition plan_with (api_key : string) (max_rounds : Z)
    (patient_scenario : string) : list call :=
  plan api_key max_rounds patient_scenario
    "James" "You are Dr. James." "David" "You are Dr. David."
    "Jones" "You are Dr. Jones." "Masoud" "You are Masoud, the moderator.".

(** The marker alone, between whitespace. *)
Definition turn_marker_only : message :=
  {[ "role" := "assistant"; "name" := "Masoud";
     "content" := " " +:+ nl +:+ "--- FINAL PLAN ---" +:+ nl ]}.

(** The same speaker and content as [turn_plan], under another role and
    with a further key. *)
Definition turn_plan_tool : message :=
  {[ "role" := "tool"; "name" := "Masoud"; "tool_call_id" := "call_1";
     "content" := "--- FINAL PLAN ---" +:+ nl +:+ "Diagnosis: X" ]}.

(** The Turn of [turn_james] with a further key. *)
Definition turn_james_annotated : message :=
  {[ "role" := "assistant"; "name" := "James"; "refusal" := "none";
     "content" := "  Consider acute rheumatic fever. " ]}.

(** The plan is there, after a message that has no role. *)
Definition transcript_plan_no_role : list message :=
  [turn_case; turn_no_role; turn_plan].

(** No call raises; the group chat holds [transcript_plan_no_role]. *)
Definition world_no_role : World :=
  {| raises := fun _ _ => None;
     messages := fun _ => transcript_plan_no_role;
     format_exc := fun _ => "Traceback (most recent call last): ..." |}.

End Sample.

(** * Evaluation on small inputs *)

Example strip_ex : PyStr.strip (String "010" "  ab c " +:+ String "009" "") = "ab c".
Proof. reflexivity. Qed.

Example replace_ex : PyStr.replace "ab" "-" "xabababy" = "x---y".
Proof. reflexivity. Qed.

Example replace_overlap_ex : PyStr.replace "aa" "" "aaa" = "a".
Proof. reflexivity. Qed.

Example replace_empty_ex : PyStr.replace "" "-" "abc" = "-a-b-c-".
Proof. reflexivity. Qed.

Example find_ex : PyStr.find "bc" "abcbc" = Some 1.
Proof. reflexivity. Qed.

Example format_history_ex :
  format_history Sample.case_text Sample.transcript []
  = Ok [ ("**Patient Scenario Input**", Sample.case_text);
         ("**James**", "Consider acute rheumatic fever.");
         ("**Moderator**", "Any other views?");
         ("**Masoud**", "--- FINAL PLAN ---" +:+ nl +:+ "Diagnosis: X") ].
Proof. vm_compute. reflexivity. Qed.

Example extract_final_plan_ex :
  extract_final_plan "Masoud" Sample.transcript = Ok "Diagnosis: X".
Proof. vm_compute. reflexivity. Qed.

Example split_ex : PyStr.split "ab" "xabababy" = ["x"; ""; ""; "y"].
Proof. reflexivity. Qed.

Example split_overlap_ex :
  PyStr.split marker "--- FINAL PLAN --- FINAL PLAN ---" = [""; " FINAL PLAN ---"].
Proof. vm_compute. reflexivity. Qed.

Example marker_overlap_ex :
  PyStr.replace marker "" "--- FINAL PLAN --- FINAL PLAN ---" = " FINAL PLAN ---".
Proof. vm_compute. reflexivity. Qed.

(** * Facts about the string methods *)

Module PyStrFacts.
Import PyStr.

Lemma str_app_cons c s t : String c s +:+ t = String c (s +:+ t).
Proof. reflexivity. Qed.

Lemma str_app_nil_l s : "" +:+ s = s.
Proof. reflexivity. Qed.

Lemma str_app_nil_r s : s +:+ "" = s.
Proof. induction s as [|c s IH]; [reflexivity|]. by rewrite str_app_cons, IH. Qed.

Lemma str_app_assoc s t u : (s +:+ t) +:+ u = s +:+ t +:+ u.
Proof. induction s as [|c s IH]; [reflexivity|]. by rewrite !str_app_cons, IH. Qed.

Lemma str_length_app s t : String.length (s +:+ t) = String.length s + String.length t.
Proof. induction s as [|c s IH]; [reflexivity|]. rewrite str_app_cons. simpl. by rewrite IH. Qed.

Lemma str_app_eq_nil s t : s +:+ t = "" -> s = "" /\ t = "".
Proof. destruct s; [rewrite str_app_nil_l; by intros ->|]. rewrite str_app_cons. discriminate. Qed.

(** ** [startswith] and [contains] *)

Lemma startswith_app x post : startswith x (x +:+ post) = true.
Proof.
  induction x as [|c x IH]; [reflexivity|].
  rewrite str_app_cons. simpl. by rewrite Ascii.eqb_refl, IH.
Qed.

Lemma startswith_inv x s : startswith x s = true -> exists post, s = x +:+ post.
Proof.
  revert s. induction x as [|c x IH]; intros s H.
  - by exists s.
  - destruct s as [|d s]; [discriminate|]. simpl in H.
    apply andb_true_iff in H as [Hc Hx]. apply Ascii.eqb_eq in Hc as ->.
    destruct (IH _ Hx) as [post ->]. by exists post.
Qed.

Lemma startswith_app_long old a rest :
  String.length old <= String.length a ->
  startswith old (a +:+ rest) = startswith old a.
Proof.
  revert a. induction old as [|c old IH]; intros a Hlen; [reflexivity|].
  destruct a as [|d a]; simpl in Hlen; [lia|].
  rewrite str_app_cons. simpl. rewrite IH by lia. reflexivity.
Qed.

Lemma contains_cons sub c s :
  contains sub (String c s) = startswith sub (String c s) || contains sub s.
Proof. reflexivity. Qed.

Lemma contains_app sub pre post : contains sub (pre +:+ sub +:+ post) = true.
Proof.
  induction pre as [|c pre IH].
  - rewrite str_app_nil_l. destruct (sub +:+ post) eqn:E; simpl.
    + destruct sub; [reflexivity|discriminate].
    + rewrite <- E, startswith_app. reflexivity.
  - rewrite str_app_cons, contains_cons, IH. apply orb_true_r.
Qed.

Lemma contains_inv sub s :
  contains sub s = true -> exists pre post, s = pre +:+ sub +:+ post.
Proof.
  induction s as [|c s IH]; intros H.
  - simpl in H. rewrite orb_false_r in H.
    destruct (startswith_inv _ _ H) as [post ->]. by exists "", post.
  - rewrite contains_cons in H. apply orb_true_iff in H as [H|H].
    + destruct (startswith_inv _ _ H) as [post ->]. by exists "", post.
    + destruct (IH H) as (pre & post & ->). by exists (String c pre), post.
Qed.

Lemma contains_nil sub : contains sub "" = true -> sub = "".
Proof. destruct sub; [done|discriminate]. Qed.

(** ** Whitespace and [strip] *)

Lemma all_space_app s t : all_space (s +:+ t) = all_space s && all_space t.
Proof.
  induction s as [|c s IH]; [reflexivity|].
  rewrite str_app_cons. simpl. by rewrite IH, andb_assoc.
Qed.

Lemma lstrip_split s :
  exists l, all_space l = true /\ s = l +:+ lstrip s.
Proof.
  induction s as [|c s (l & Hl & IH)]; [by exists ""|].
  simpl. destruct (isspace c) eqn:Hc.
  - exists (String c l). simpl. rewrite Hc, Hl. split; [done|].
    by rewrite str_app_cons, <- IH.
  - by exists "".
Qed.

Lemma rstrip_split s :
  exists r, all_space r = true /\ s = rstrip s +:+ r.
Proof.
  induction s as [|c s (r & Hr & IH)]; [by exists ""|].
  simpl. destruct (rstrip s) as [|d t] eqn:E.
  - rewrite str_app_nil_l in IH. subst r. destruct (isspace c) eqn:Hc.
    + exists (String c s). simpl. by rewrite Hc, Hr.
    + exists s. by rewrite str_app_cons.
  - exists r. split; [done|]. by rewrite str_app_cons, <- IH.
Qed.

Lemma lstrip_first s c : first_char (lstrip s) = Some c -> isspace c = false.
Proof.
  induction s as [|d s IH]; [discriminate|].
  simpl. destruct (isspace d) eqn:Hd; [done|]. simpl. by intros [= <-].
Qed.

Lemma rstrip_last s c : last_char (rstrip s) = Some c -> isspace c = false.
Proof.
  induction s as [|d s IH]; [discriminate|].
  simpl. destruct (rstrip s) as [|e t] eqn:E.
  - destruct (isspace d) eqn:Hd; [discriminate|]. simpl. by intros [= <-].
  - intros H. apply IH. exact H.
Qed.

Lemma rstrip_first s c : first_char (rstrip s) = Some c -> first_char s = Some c.
Proof.
  destruct s as [|d s]; [discriminate|].
  simpl. destruct (rstrip s); [destruct (isspace d)|]; simpl; congruence.
Qed.

(** What [strip] returns: the argument without a run of whitespace at
    each end, and with no whitespace left at either end. *)
Lemma strip_spec s :
  exists l r,
    s = l +:+ strip s +:+ r
    /\ all_space l = true /\ all_space r = true
    /\ (forall c, first_char (strip s) = Some c -> isspace c = false)
    /\ (forall c, last_char (strip s) = Some c -> isspace c = false).
Proof.
  destruct (lstrip_split s) as (l & Hl & Hs).
  destruct (rstrip_split (lstrip s)) as (r & Hr & Ht).
  exists l, r. unfold strip. repeat split; try done.
  - by rewrite <- Ht.
  - intros c Hc. apply (lstrip_first s). by apply rstrip_first.
  - intros c. apply rstrip_last.
Qed.

Lemma rstrip_all_space s : all_space s = true -> rstrip s = "".
Proof.
  induction s as [|c s IH]; [done|]. simpl.
  intros [Hc Hs]%andb_true_iff. by rewrite IH, Hc.
Qed.

Lemma lstrip_all_space s : all_space s = true -> lstrip s = "".
Proof.
  induction s as [|c s IH]; [done|]. simpl.
  intros [Hc Hs]%andb_true_iff. rewrite Hc. by apply IH.
Qed.

Lemma strip_empty_iff s : strip s = "" <-> all_space s = true.
Proof.
  split.
  - intros H. destruct (strip_spec s) as (l & r & Hs & Hl & Hr & _).
    rewrite H, str_app_nil_l in Hs. rewrite Hs, all_space_app, Hl, Hr. done.
  - intros H. unfold strip. by rewrite lstrip_all_space.
Qed.

Lemma truthy_false s : truthy s = false <-> s = "".
Proof. by destruct s. Qed.

Lemma truthy_true s : truthy s = true <-> s <> "".
Proof. by destruct s. Qed.

(** ** [replace] *)

Lemma replace_scan_skip old new x rest :
  replace_scan old new (x +:+ rest) (String.length x)
  = replace_scan old new rest 0.
Proof. induction x as [|c x IH]; [reflexivity|]. rewrite str_app_cons. simpl. exact IH. Qed.

Lemma replace_scan_here old new rest :
  old <> "" ->
  replace_scan old new (old +:+ rest) 0 = new +:+ replace_scan old new rest 0.
Proof.
  intros Hold. destruct old as [|c old'] eqn:E; [done|].
  rewrite <- E at 1. assert (Hs : startswith (String c old') (String c old' +:+ rest) = true)
    by apply startswith_app.
  rewrite E. rewrite str_app_cons in *. cbn [replace_scan]. rewrite Hs.
  cbn [String.length]. rewrite Nat.sub_succ, Nat.sub_0_r.
  by rewrite replace_scan_skip.
Qed.

Lemma find_cons_Some old c s n :
  find old (String c s) = Some (S n) ->
  startswith old (String c s) = false /\ find old s = Some n.
Proof.
  cbn [find]. destruct (startswith old (String c s)); [discriminate|].
  destruct (find old s); simpl; [|discriminate]. intros [= ->]. done.
Qed.

Lemma replace_scan_part old new p rest :
  old <> "" ->
  find old (p +:+ old) = Some (String.length p) ->
  replace_scan old new (p +:+ old +:+ rest) 0
  = p +:+ new +:+ replace_scan old new rest 0.
Proof.
  intros Hold. induction p as [|d p IH]; intros Hfind.
  - rewrite !str_app_nil_l. by apply replace_scan_here.
  - rewrite str_app_cons in Hfind. cbn [String.length] in Hfind.
    apply find_cons_Some in Hfind as [Hno Hfind].
    rewrite !str_app_cons. cbn [replace_scan].
    assert (Hlong : startswith old (String d (p +:+ old +:+ rest)) = false).
    { rewrite <- str_app_assoc, <- str_app_cons, startswith_app_long; [exact Hno|].
      cbn [String.length]. rewrite str_length_app. lia. }
    rewrite Hlong. f_equal. by apply IH.
Qed.

Lemma replace_scan_absent old new s :
  contains old s = false -> replace_scan old new s 0 = s.
Proof.
  induction s as [|c s IH]; [reflexivity|].
  rewrite contains_cons. intros [Hh Ht]%orb_false_iff.
  cbn [replace_scan]. rewrite Hh. f_equal. by apply IH.
Qed.

(** [s.replace(old, new)] is [new.join(parts)] when [s] is [parts]
    joined by [old] and [parts] is the cut a left-to-right scan makes. *)
Lemma replace_join old new parts :
  old <> "" ->
  scan_split old parts = true ->
  replace old new (join old parts) = join new parts.
Proof.
  intros Hold. unfold replace. destruct old as [|c0 old0] eqn:E; [done|].
  rewrite <- E in *. clear E c0 old0.
  induction parts as [|p ps IH]; [reflexivity|].
  destruct ps as [|q ps].
  - cbn [scan_split join]. intros Hp%negb_true_iff. by apply replace_scan_absent.
  - cbn [scan_split join] in *. intros [Hp Hps]%andb_true_iff.
    destruct (find old (p +:+ old)) as [n|] eqn:Hf; [|discriminate].
    apply Nat.eqb_eq in Hp as ->.
    rewrite replace_scan_part by done. by rewrite IH.
Qed.

Lemma join_empty parts : join "" parts = concat parts.
Proof.
  induction parts as [|p ps IH]; [reflexivity|].
  destruct ps as [|q ps]; [by cbn; rewrite str_app_nil_r|].
  cbn [join concat] in *. by rewrite str_app_nil_l, IH.
Qed.

(** ** [split] *)

Lemma split_scan_skip sep x rest :
  split_scan sep (x +:+ rest) (String.length x) = split_scan sep rest 0.
Proof. induction x as [|c x IH]; [reflexivity|]. rewrite str_app_cons. simpl. exact IH. Qed.

Lemma split_here sep rest :
  sep <> "" -> split sep (sep +:+ rest) = "" :: split sep rest.
Proof.
  intros Hsep. unfold split. destruct sep as [|c sep'] eqn:E; [done|].
  assert (Hs : startswith (String c sep') (String c sep' +:+ rest) = true)
    by apply startswith_app.
  rewrite str_app_cons in *. cbn [split_scan]. rewrite Hs.
  cbn [String.length]. rewrite Nat.sub_succ, Nat.sub_0_r.
  by rewrite split_scan_skip.
Qed.

Lemma split_next sep c rest :
  startswith sep (String c rest) = false ->
  split sep (String c rest)
  = match split sep rest with
    | p :: ps => String c p :: ps
    | [] => [String c ""]
    end.
Proof. unfold split. cbn [split_scan]. by intros ->. Qed.

Lemma find_app_self sep p :
  find sep (p +:+ sep) = Some (String.length p) ->
  forall c, startswith sep (String c (p +:+ sep)) = false ->
  find sep (String c p +:+ sep) = Some (String.length (String c p)).
Proof.
  intros Hp c Hc. rewrite str_app_cons. cbn [find]. by rewrite Hc, Hp.
Qed.

Lemma find_self sep rest : find sep (sep +:+ rest) = Some 0.
Proof.
  destruct (sep +:+ rest) eqn:E; cbn [find]; rewrite <- E, startswith_app; done.
Qed.

(** The cut that [split] makes is the cut of the left-to-right scan, and
    joining its parts gives the string back. *)
Lemma split_spec sep s :
  sep <> "" ->
  split sep s <> []
  /\ join sep (split sep s) = s
  /\ scan_split sep (split sep s) = true.
Proof.
  intros Hsep.
  assert (Hempty : contains sep "" = false) by (destruct sep; done).
  assert (Hbase : split sep "" <> [] /\ join sep (split sep "") = ""
                  /\ scan_split sep (split sep "") = true).
  { unfold split. cbn [split_scan join scan_split]. by rewrite Hempty. }
  remember (String.length s) as n eqn:Hn.
  assert (Hlen : String.length s <= n) by lia. clear Hn.
  revert s Hlen. induction n as [|n IH]; intros s Hlen.
  { destruct s; [exact Hbase|cbn in Hlen; lia]. }
  destruct s as [|c s]; [exact Hbase|].
  cbn [String.length] in Hlen.
  destruct (startswith sep (String c s)) eqn:Hstart.
  - destruct (startswith_inv _ _ Hstart) as [rest Hrest].
    assert (Hrlen : String.length rest <= n).
    { apply (f_equal String.length) in Hrest. rewrite str_length_app in Hrest.
      cbn [String.length] in Hrest. destruct sep; [done|].
      cbn [String.length] in Hrest. lia. }
    destruct (IH rest Hrlen) as (Hne & Hjoin & Hscan).
    rewrite Hrest, split_here by done.
    destruct (split sep rest) as [|q qs]; [done|].
    split; [done|]. split.
    + cbn [join] in *. by rewrite str_app_nil_l, Hjoin.
    + cbn [scan_split] in *. rewrite str_app_nil_l.
      rewrite <- (str_app_nil_r sep) at 2. rewrite find_self. done.
  - destruct (IH s ltac:(lia)) as (Hne & Hjoin & Hscan).
    rewrite split_next by done.
    destruct (split sep s) as [|p ps]; [done|].
    split; [done|]. destruct ps as [|q ps].
    + cbn [join scan_split] in *. subst p. split; [done|].
      rewrite contains_cons, Hstart. exact Hscan.
    + cbn [join scan_split] in *. split.
      * by rewrite str_app_cons, Hjoin.
      * apply andb_true_iff in Hscan as [Hfind Hrest].
        destruct (find sep (p +:+ sep)) as [m|] eqn:Hf; [|discriminate].
        apply Nat.eqb_eq in Hfind as ->.
        assert (Hshort : startswith sep (String c (p +:+ sep)) = false).
        { rewrite <- Hstart, <- Hjoin.
          rewrite <- str_app_assoc, <- (str_app_cons c (p +:+ sep)).
          symmetry. apply startswith_app_long.
          cbn [String.length]. rewrite str_length_app. lia. }
        rewrite (find_app_self _ _ Hf _ Hshort). cbn [String.length].
        by rewrite Nat.eqb_refl, Hrest.
Qed.

End PyStrFacts.

(** * Facts about the transcript formatter *)

Section Formatter.
Import PyStr PyStrFacts.

Variable patient_scenario : string.

Lemma subscript_Some (msg : message) key v :
  msg !! key = Some v -> subscript msg key = Ok v.
Proof. unfold subscript. by intros ->. Qed.

Lemma subscript_None (msg : message) key :
  msg !! key = None -> subscript msg key = Raise (KeyError key).
Proof. unfold subscript. by intros ->. Qed.

Lemma get_Some (msg : message) key dflt v :
  msg !! key = Some v -> get msg key dflt = v.
Proof. unfold get. by intros ->. Qed.

Lemma get_None (msg : message) key dflt :
  msg !! key = None -> get msg key dflt = dflt.
Proof. unfold get. by intros ->. Qed.

(** One round of the display loop adds what [display_turn] says. *)
Lemma format_history_step msg rest acc :
  has_subscripts msg = true ->
  format_history patient_scenario (msg :: rest) acc
  = format_history patient_scenario rest (acc ++ display_turn patient_scenario msg).
Proof.
  unfold has_subscripts, display_turn, is_submitter. cbn [format_history].
  destruct (msg !! "role") as [role|] eqn:Hrole; [|discriminate].
  rewrite (subscript_Some _ _ _ Hrole). cbn.
  destruct (String.eqb role "user").
  - intros [c Hc]%bool_decide_eq_true.
    rewrite (subscript_Some _ _ _ Hc), (get_Some _ _ _ _ Hc). cbn.
    destruct (contains header c); [done|]. by rewrite app_nil_r.
  - intros _. destruct (truthy _); [done|]. by rewrite app_nil_r.
Qed.

(** A round that lacks a subscripted field raises [KeyError]. *)
Lemma format_history_stuck msg rest acc :
  has_subscripts msg = false ->
  exists key, format_history patient_scenario (msg :: rest) acc
              = Raise (KeyError key).
Proof.
  unfold has_subscripts. cbn [format_history].
  destruct (msg !! "role") as [role|] eqn:Hrole.
  - rewrite (subscript_Some _ _ _ Hrole). cbn.
    destruct (String.eqb role "user"); [|discriminate].
    intros Hc%bool_decide_eq_false. exists "content".
    rewrite subscript_None; [done|].
    destruct (msg !! "content") eqn:E; [|done]. destruct Hc. by eexists.
  - intros _. exists "role". by rewrite (subscript_None _ _ Hrole).
Qed.

Lemma format_history_ok chat_history acc :
  forallb has_subscripts chat_history = true ->
  format_history patient_scenario chat_history acc
  = Ok (acc ++ flat_map (display_turn patient_scenario) chat_history).
Proof.
  revert acc. induction chat_history as [|msg rest IH]; intros acc.
  - intros _. cbn. by rewrite app_nil_r.
  - cbn [forallb flat_map]. intros [Hmsg Hrest]%andb_true_iff.
    rewrite format_history_step, IH by done. by rewrite <- app_assoc.
Qed.

Lemma format_history_inv chat_history acc d :
  format_history patient_scenario chat_history acc = Ok d ->
  forallb has_subscripts chat_history = true
  /\ d = acc ++ flat_map (display_turn patient_scenario) chat_history.
Proof.
  revert acc. induction chat_history as [|msg rest IH]; intros acc.
  - cbn. intros [= <-]. by rewrite app_nil_r.
  - destruct (has_subscripts msg) eqn:Hmsg.
    + rewrite format_history_step by done. intros [Hrest ->]%IH.
      cbn [forallb flat_map]. by rewrite Hmsg, Hrest, <- app_assoc.
    + destruct (format_history_stuck msg rest acc Hmsg) as [key ->]. discriminate.
Qed.

(** Whitespace-only content holds no header. *)
Lemma header_not_blank c : contains header c = true -> strip c <> "".
Proof.
  intros (pre & post & ->)%contains_inv Hs%strip_empty_iff.
  rewrite !all_space_app in Hs.
  apply andb_true_iff in Hs as [_ Hs]. apply andb_true_iff in Hs as [Hs _].
  discriminate.
Qed.

Lemma display_turn_blank msg :
  strip (get msg "content" "") = "" -> display_turn patient_scenario msg = [].
Proof.
  intros Hblank. unfold display_turn.
  destruct (is_submitter msg).
  - destruct (contains header _) eqn:Hh; [|done].
    by apply header_not_blank in Hh.
  - cbn. by rewrite Hblank.
Qed.

End Formatter.

(** * Facts about the backward scan *)

Section FinalPlan.
Import PyStr PyStrFacts.

Variable masoud_name : string.

Lemma is_final_plan_fields msg :
  is_final_plan masoud_name msg = true ->
  exists c, msg !! "content" = Some c
            /\ contains marker c = true
            /\ msg !! "name" = Some masoud_name.
Proof.
  unfold is_final_plan, name_is, get.
  intros [Hname Hc]%andb_true_iff.
  destruct (msg !! "name") as [n|]; [|discriminate].
  apply String.eqb_eq in Hname as ->.
  destruct (msg !! "content") as [c|]; [|discriminate].
  by exists c.
Qed.

Lemma is_final_plan_intro msg c :
  msg !! "name" = Some masoud_name ->
  msg !! "content" = Some c ->
  contains marker c = true ->
  is_final_plan masoud_name msg = true.
Proof.
  intros Hn Hc Hm. unfold is_final_plan, name_is, get.
  rewrite Hn, Hc, String.eqb_refl. cbn. exact Hm.
Qed.

Lemma final_plan_scan_hit msg rest final_plan :
  is_final_plan masoud_name msg = true ->
  final_plan_scan masoud_name (msg :: rest) final_plan
  = Ok (strip (replace marker "" (get msg "content" ""))).
Proof.
  intros H. cbn [final_plan_scan]. rewrite H.
  destruct (is_final_plan_fields _ H) as (c & Hc & _ & _).
  by rewrite (subscript_Some _ _ _ Hc), (get_Some _ _ _ _ Hc).
Qed.

Lemma final_plan_scan_skip pre rest final_plan :
  no_final_plan masoud_name pre = true ->
  final_plan_scan masoud_name (pre ++ rest) final_plan
  = final_plan_scan masoud_name rest final_plan.
Proof.
  induction pre as [|msg pre IH]; [done|].
  cbn. intros [Hmsg Hpre]%andb_true_iff.
  apply negb_true_iff in Hmsg. rewrite Hmsg. by apply IH.
Qed.

Lemma no_final_plan_rev msgs :
  no_final_plan masoud_name (rev msgs) = no_final_plan masoud_name msgs.
Proof.
  unfold no_final_plan. induction msgs as [|msg msgs IH]; [done|].
  cbn. rewrite forallb_app, IH. cbn. rewrite andb_true_r. apply andb_comm.
Qed.

(** The backward scan returns the plan of the last message that
    passes the test. *)
Lemma extract_last pre msg post :
  is_final_plan masoud_name msg = true ->
  no_final_plan masoud_name post = true ->
  extract_final_plan masoud_name (pre ++ msg :: post)
  = Ok (strip (replace marker "" (get msg "content" ""))).
Proof.
  intros Hmsg Hpost. unfold extract_final_plan.
  rewrite rev_app_distr. cbn [rev]. rewrite <- app_assoc. cbn [app].
  rewrite final_plan_scan_skip by by rewrite no_final_plan_rev.
  by apply final_plan_scan_hit.
Qed.

Lemma extract_none chat_history :
  no_final_plan masoud_name chat_history = true ->
  extract_final_plan masoud_name chat_history = Ok fallback.
Proof.
  intros H. unfold extract_final_plan.
  rewrite <- (app_nil_r (rev chat_history)).
  by rewrite final_plan_scan_skip by by rewrite no_final_plan_rev.
Qed.

(** The subscript of the scan is guarded by its test: it never raises. *)
Lemma final_plan_scan_total msgs final_plan :
  exists plan_text, final_plan_scan masoud_name msgs final_plan = Ok plan_text.
Proof.
  induction msgs as [|msg rest IH]; [by eexists|].
  destruct (is_final_plan masoud_name msg) eqn:H.
  - rewrite final_plan_scan_hit by done. by eexists.
  - cbn [final_plan_scan]. by rewrite H.
Qed.

End FinalPlan.

(** * Facts about the orchestrator *)

Section Orchestrator.
Import PyStr PyStrFacts.

Variable w : World.

Lemma perform_all_quiet cs log :
  quiet w -> perform_all w cs log = (log ++ cs, Ok tt).
Proof.
  intros Hq. revert log. induction cs as [|c cs IH]; intros log.
  - cbn. by rewrite app_nil_r.
  - cbn [perform_all]. unfold mbind, M_bind, perform. rewrite Hq.
    rewrite IH, <- app_assoc. done.
Qed.

Lemma perform_all_raise cs : forall log k c e,
  cs !! k = Some c ->
  raises w (log ++ take k cs) c = Some e ->
  (forall j c', j < k -> cs !! j = Some c' -> raises w (log ++ take j cs) c' = None) ->
  perform_all w cs log = (log ++ take (S k) cs, Raise e).
Proof.
  induction cs as [|c0 cs IH]; intros log k c e Hk He Hbefore; [done|].
  cbn [perform_all]. unfold mbind, M_bind, perform.
  destruct k as [|k].
  - cbn in Hk. injection Hk as ->. cbn in He. rewrite app_nil_r in He.
    by rewrite He.
  - assert (H0 : raises w log c0 = None).
    { specialize (Hbefore 0 c0). cbn in Hbefore. rewrite app_nil_r in Hbefore.
      apply Hbefore; [lia|done]. }
    rewrite H0. cbn in Hk, He. rewrite (IH (log ++ [c0]) k c e).
    + by rewrite <- app_assoc.
    + done.
    + by rewrite <- app_assoc.
    + intros j c' Hj Hc'. rewrite <- app_assoc. apply (Hbefore (S j)); [lia|done].
Qed.

Variables (api_key : string) (max_rounds : Z) (patient_scenario : string).
Variables (james_name james_prompt david_name david_prompt : string).
Variables (jones_name jones_prompt masoud_name masoud_prompt : string).

Let the_plan : list call :=
  plan api_key max_rounds patient_scenario james_name james_prompt
    david_name david_prompt jones_name jones_prompt masoud_name masoud_prompt.

Let run : list call * output :=
  run_consultation w api_key max_rounds patient_scenario james_name james_prompt
    david_name david_prompt jones_name jones_prompt masoud_name masoud_prompt.

(** The [try] block makes the calls of [plan] and then processes the
    output. *)
Lemma consultation_plan log :
  consultation w api_key max_rounds patient_scenario james_name james_prompt
    david_name david_prompt jones_name jones_prompt masoud_name masoud_prompt log
  = match perform_all w the_plan log with
    | (log', Ok _) => process_output w patient_scenario masoud_name log'
    | (log', Raise e) => (log', Raise e)
    end.
Proof.
  unfold consultation, the_plan, plan. cbn [perform_all].
  unfold mbind, M_bind, perform.
  repeat match goal with
         | |- context [raises w ?l ?c] => destruct (raises w l c); cbn beta iota
         end; reflexivity.
Qed.

Lemma process_output_eq log :
  process_output w patient_scenario masoud_name log
  = (log,
     d ← format_history patient_scenario (messages w log) [];
     final_plan ← extract_final_plan masoud_name (messages w log);
     mret (d, final_plan)).
Proof.
  unfold process_output, chat_messages, lift, mbind, M_bind, result_bind.
  destruct (format_history _ _ _); [|done].
  destruct (extract_final_plan _ _); done.
Qed.

Hypothesis key_given : truthy api_key = true.
Hypothesis scenario_given : truthy (strip patient_scenario) = true.

Lemma run_consultation_body :
  run = match consultation w api_key max_rounds patient_scenario
                james_name james_prompt david_name david_prompt
                jones_name jones_prompt masoud_name masoud_prompt []
        with
        | (log, Ok out) => (log, out)
        | (log, Raise e) => (log, ([], error_message w e))
        end.
Proof.
  unfold run, run_consultation. by rewrite key_given, scenario_given.
Qed.

(** When a call raises, the calls stop there and the handler answers. *)
Lemma run_consultation_raise k e :
  first_raise w the_plan k e ->
  run = (take (S k) the_plan, ([], error_message w e)).
Proof.
  intros [(c & Hc & He) Hbefore].
  rewrite run_consultation_body, consultation_plan.
  by rewrite (perform_all_raise the_plan [] k c e).
Qed.

(** When no call raises, all the calls of the plan are made and the
    messages of the group chat are processed. *)
Lemma run_consultation_quiet :
  quiet w ->
  run = (the_plan,
         match format_history patient_scenario (messages w the_plan) [] with
         | Ok d =>
             match extract_final_plan masoud_name (messages w the_plan) with
             | Ok final_plan => (d, final_plan)
             | Raise e => ([], error_message w e)
             end
         | Raise e => ([], error_message w e)
         end).
Proof.
  intros Hq. rewrite run_consultation_body, consultation_plan.
  rewrite perform_all_quiet by done. cbn [app].
  rewrite process_output_eq. unfold mbind, result_bind.
  destruct (format_history _ _ _); [|done].
  destruct (extract_final_plan _ _); done.
Qed.

End Orchestrator.

(** * FinalPlan extraction *)

Section FinalPlanClaims.
Import PyStr PyStrFacts.

Lemma no_final_plan_filter masoud_name msgs :
  no_final_plan masoud_name msgs = true ->
  List.filter (is_final_plan masoud_name) msgs = [].
Proof.
  induction msgs as [|msg msgs IH]; [done|].
  cbn. intros [Hmsg Hrest]%andb_true_iff.
  apply negb_true_iff in Hmsg. rewrite Hmsg. by apply IH.
Qed.

(** A transcript with a marked moderator Turn splits at the last one. *)
Lemma last_final_plan_split masoud_name chat_history :
  no_final_plan masoud_name chat_history = false ->
  exists pre late post,
    chat_history = pre ++ late :: post
    /\ is_final_plan masoud_name late = true
    /\ no_final_plan masoud_name post = true.
Proof.
  induction chat_history as [|msg rest IH]; [discriminate|].
  destruct (no_final_plan masoud_name rest) eqn:Hrest.
  - cbn. fold (no_final_plan masoud_name rest). rewrite Hrest, andb_true_r.
    intros Hmsg%negb_false_iff. by exists [], msg, rest.
  - intros _. destruct (IH eq_refl) as (pre & late & post & -> & Hlate & Hpost).
    by exists (msg :: pre), late, post.
Qed.

(** C1. The backward scan returns the plan of the Turn closest to the
    end whose speaker is the moderator's name and whose content holds
    the marker "--- FINAL PLAN ---" at any place: the content with the
    marker taken out and the whitespace at both ends removed.  For the
    content "--- FINAL PLAN ---", newline, "Diagnosis: X" the plan is
    exactly "Diagnosis: X". *)
Theorem final_plan_of_last_marked_turn
    (masoud_name : string) (pre post : list message) (msg : message)
    (before after : string) :
  msg !! "name" = Some masoud_name ->
  msg !! "content" = Some (before +:+ marker +:+ after) ->
  no_final_plan masoud_name post = true ->
  exists final_plan l r,
    extract_final_plan masoud_name (pre ++ msg :: post) = Ok final_plan
    /\ final_plan = strip (replace marker "" (before +:+ marker +:+ after))
    /\ replace marker "" (before +:+ marker +:+ after) = l +:+ final_plan +:+ r
    /\ all_space l = true /\ all_space r = true
    /\ (forall c, first_char final_plan = Some c -> isspace c = false)
    /\ (forall c, last_char final_plan = Some c -> isspace c = false)
    /\ (scan_split marker [before; after] = true ->
        final_plan = strip (before +:+ after))
    /\ (before = "" -> after = nl +:+ "Diagnosis: X" ->
        final_plan = "Diagnosis: X").
Proof.
  intros Hname Hcontent Hpost.
  set (c := before +:+ marker +:+ after) in *.
  assert (Hmsg : is_final_plan masoud_name msg = true).
  { apply (is_final_plan_intro _ _ c); try done. apply contains_app. }
  destruct (strip_spec (replace marker "" c)) as (l & r & Hsplit & Hl & Hr & Hf & Hla).
  exists (strip (replace marker "" c)), l, r.
  split; [|split; [done|split; [done|split; [done|split; [done|split; [done|split; [done|split]]]]]]].
  - rewrite (extract_last _ _ _ _ Hmsg Hpost). by rewrite (get_Some _ _ _ _ Hcontent).
  - intros Hparts. subst c.
    change (before +:+ marker +:+ after) with (join marker [before; after]).
    rewrite replace_join by done. cbn [join]. by rewrite str_app_nil_l.
  - intros -> ->. subst c. vm_compute. reflexivity.
Qed.

Lemma final_plan_of_last_marked_turn_witness :
  (Sample.turn_plan !! "name" = Some "Masoud"
   /\ Sample.turn_plan !! "content" = Some ("" +:+ marker +:+ (nl +:+ "Diagnosis: X"))
   /\ no_final_plan "Masoud" [Sample.turn_quote] = true)
  /\ exists final_plan l r,
       extract_final_plan "Masoud"
         ([Sample.turn_case; Sample.turn_draft] ++ Sample.turn_plan :: [Sample.turn_quote])
       = Ok final_plan
       /\ final_plan = strip (replace marker "" ("" +:+ marker +:+ (nl +:+ "Diagnosis: X")))
       /\ replace marker "" ("" +:+ marker +:+ (nl +:+ "Diagnosis: X")) = l +:+ final_plan +:+ r
       /\ all_space l = true /\ all_space r = true
       /\ (forall c, first_char final_plan = Some c -> isspace c = false)
       /\ (forall c, last_char final_plan = Some c -> isspace c = false)
       /\ (scan_split marker [""; nl +:+ "Diagnosis: X"] = true ->
           final_plan = strip ("" +:+ (nl +:+ "Diagnosis: X")))
       /\ ("" = "" -> nl +:+ "Diagnosis: X" = nl +:+ "Diagnosis: X" ->
           final_plan = "Diagnosis: X").
Proof.
  split.
  - repeat split; vm_compute; reflexivity.
  - apply (final_plan_of_last_marked_turn "Masoud"
             [Sample.turn_case; Sample.turn_draft] [Sample.turn_quote]
             Sample.turn_plan "" (nl +:+ "Diagnosis: X"));
      vm_compute; reflexivity.
Defined.

(** C2. In a transcript with two or more Turns of the moderator that
    hold the marker, the plan comes from the one closest to the end;
    the Turns before it, marked or not, have no effect on the result. *)
Theorem later_marked_turn_wins (masoud_name : string) (chat_history : list message) :
  2 <= length (List.filter (is_final_plan masoud_name) chat_history) ->
  exists pre late post,
    chat_history = pre ++ late :: post
    /\ is_final_plan masoud_name late = true
    /\ no_final_plan masoud_name post = true
    /\ 1 <= length (List.filter (is_final_plan masoud_name) pre)
    /\ extract_final_plan masoud_name chat_history
       = Ok (strip (replace marker "" (get late "content" "")))
    /\ (forall pre', extract_final_plan masoud_name (pre' ++ late :: post)
                     = extract_final_plan masoud_name chat_history).
Proof.
  intros Htwo.
  destruct (no_final_plan masoud_name chat_history) eqn:Hany.
  { rewrite no_final_plan_filter in Htwo by done. cbn in Htwo. lia. }
  destruct (last_final_plan_split _ _ Hany) as (pre & late & post & -> & Hlate & Hpost).
  exists pre, late, post. repeat split; try done.
  - rewrite List.filter_app in Htwo. cbn [List.filter] in Htwo.
    rewrite Hlate, (no_final_plan_filter _ _ Hpost) in Htwo.
    rewrite length_app in Htwo. cbn in Htwo. lia.
  - by apply extract_last.
  - intros pre'. by rewrite !extract_last.
Qed.

Lemma later_marked_turn_wins_witness :
  2 <= length (List.filter (is_final_plan "Masoud")
                 [Sample.turn_case; Sample.turn_draft; Sample.turn_james;
                  Sample.turn_plan; Sample.turn_quote])
  /\ exists pre late post,
       [Sample.turn_case; Sample.turn_draft; Sample.turn_james;
        Sample.turn_plan; Sample.turn_quote] = pre ++ late :: post
       /\ is_final_plan "Masoud" late = true
       /\ no_final_plan "Masoud" post = true
       /\ 1 <= length (List.filter (is_final_plan "Masoud") pre)
       /\ extract_final_plan "Masoud"
            [Sample.turn_case; Sample.turn_draft; Sample.turn_james;
             Sample.turn_plan; Sample.turn_quote]
          = Ok (strip (replace marker "" (get late "content" "")))
       /\ (forall pre', extract_final_plan "Masoud" (pre' ++ late :: post)
                        = extract_final_plan "Masoud"
                            [Sample.turn_case; Sample.turn_draft; Sample.turn_james;
                             Sample.turn_plan; Sample.turn_quote]).
Proof.
  split.
  - vm_compute. lia.
  - apply (later_marked_turn_wins "Masoud"). vm_compute. lia.
Defined.

(** C3. When no Turn has both the moderator's name as speaker and the
    marker in its content, the extraction returns, as a normal result,
    the text "Final plan not generated or found in the conversation." *)
Theorem fallback_when_no_marked_turn (masoud_name : string) (chat_history : list message) :
  (forall msg, In msg chat_history ->
     ~ (msg !! "name" = Some masoud_name
        /\ contains marker (get msg "content" "") = true)) ->
  extract_final_plan masoud_name chat_history
  = Ok "Final plan not generated or found in the conversation.".
Proof.
  intros Hnone. apply extract_none. unfold no_final_plan.
  apply forallb_forall. intros msg Hin. apply negb_true_iff.
  destruct (is_final_plan masoud_name msg) eqn:Hmsg; [|done].
  destruct (is_final_plan_fields _ _ Hmsg) as (c & Hc & Hm & Hn).
  destruct (Hnone msg Hin). split; [done|]. by rewrite (get_Some _ _ _ _ Hc).
Qed.

Lemma fallback_when_no_marked_turn_witness :
  (forall msg, In msg [Sample.turn_case; Sample.turn_james; Sample.turn_quote] ->
     ~ (msg !! "name" = Some "Masoud"
        /\ contains marker (get msg "content" "") = true))
  /\ extract_final_plan "Masoud" [Sample.turn_case; Sample.turn_james; Sample.turn_quote]
     = Ok "Final plan not generated or found in the conversation.".
Proof.
  assert (H : forall msg, In msg [Sample.turn_case; Sample.turn_james; Sample.turn_quote] ->
     ~ (msg !! "name" = Some "Masoud"
        /\ contains marker (get msg "content" "") = true)).
  { intros msg [<-|[<-|[<-|[]]]] [Hn Hc]; vm_compute in Hn, Hc; discriminate. }
  split; [exact H|].
  apply (fallback_when_no_marked_turn "Masoud" _ H).
Defined.

(** C10. The plan of the Turn found has every occurrence of the marker
    removed, not only the first or a leading one, before it is trimmed:
    the content is cut at each occurrence that a scan from the left
    finds (the parts of [split], two or more, with the marker between
    each two), and the plan is these parts put together, trimmed.  The
    same holds for any list of parts that is such a cut of the content. *)
Theorem marker_removed_everywhere
    (masoud_name : string) (pre post : list message) (msg : message)
    (c : string) :
  msg !! "name" = Some masoud_name ->
  msg !! "content" = Some c ->
  contains marker c = true ->
  no_final_plan masoud_name post = true ->
  c = join marker (split marker c)
  /\ scan_split marker (split marker c) = true
  /\ 1 < length (split marker c)
  /\ extract_final_plan masoud_name (pre ++ msg :: post)
     = Ok (strip (concat (split marker c)))
  /\ (forall parts,
        c = join marker parts -> scan_split marker parts = true ->
        extract_final_plan masoud_name (pre ++ msg :: post)
        = Ok (strip (concat parts))).
Proof.
  intros Hname Hcontent Hmarker Hpost.
  assert (Hmsg : is_final_plan masoud_name msg = true)
    by exact (is_final_plan_intro _ _ _ Hname Hcontent Hmarker).
  assert (Hany : forall parts,
            c = join marker parts -> scan_split marker parts = true ->
            extract_final_plan masoud_name (pre ++ msg :: post)
            = Ok (strip (concat parts))).
  { intros parts Hjoin Hparts.
    rewrite (extract_last _ _ _ _ Hmsg Hpost), (get_Some _ _ _ _ Hcontent).
    rewrite Hjoin, replace_join by done. by rewrite join_empty. }
  destruct (split_spec marker c ltac:(done)) as (Hne & Hjoin & Hscan).
  split; [done|]. split; [done|]. split; [|split; [by apply Hany|exact Hany]].
  destruct (split marker c) as [|p [|q ps]]; [done| |cbn; lia].
  cbn [join scan_split] in *. subst p. by rewrite Hmarker in Hscan.
Qed.

Lemma marker_removed_everywhere_witness :
  (Sample.turn_plan_twice !! "name" = Some "Masoud"
   /\ Sample.turn_plan_twice !! "content"
      = Some (join marker [" Summary "; " Diagnosis: X "; " done "])
   /\ contains marker (join marker [" Summary "; " Diagnosis: X "; " done "]) = true
   /\ no_final_plan "Masoud" [Sample.turn_quote] = true)
  /\ split marker (join marker [" Summary "; " Diagnosis: X "; " done "])
     = [" Summary "; " Diagnosis: X "; " done "]
  /\ extract_final_plan "Masoud"
       ([Sample.turn_case] ++ Sample.turn_plan_twice :: [Sample.turn_quote])
     = Ok (strip (concat
             (split marker (join marker [" Summary "; " Diagnosis: X "; " done "])))).
Proof.
  split; [repeat split; vm_compute; reflexivity|].
  split; [vm_compute; reflexivity|].
  apply (marker_removed_everywhere "Masoud" [Sample.turn_case]
           [Sample.turn_quote] Sample.turn_plan_twice
           (join marker [" Summary "; " Diagnosis: X "; " done "]));
    vm_compute; reflexivity.
Defined.

End FinalPlanClaims.

(** * The display list *)

Section DisplayClaims.
Import PyStr PyStrFacts.

Variable patient_scenario : string.

(** The display list of a transcript is made of the display lists of its
    parts, in order. *)
Lemma format_history_split pre msg post d :
  format_history patient_scenario (pre ++ msg :: post) [] = Ok d ->
  exists d1 d2,
    format_history patient_scenario pre [] = Ok d1
    /\ format_history patient_scenario post [] = Ok d2
    /\ d = d1 ++ display_turn patient_scenario msg ++ d2.
Proof.
  intros [Hsub ->]%format_history_inv.
  rewrite forallb_app in Hsub. cbn [forallb] in Hsub.
  apply andb_true_iff in Hsub as [Hpre Hrest].
  apply andb_true_iff in Hrest as [_ Hpost].
  exists (flat_map (display_turn patient_scenario) pre),
         (flat_map (display_turn patient_scenario) post).
  rewrite !format_history_ok by done. cbn [app].
  by rewrite flat_map_app.
Qed.

Lemma display_turn_injection msg :
  is_injection msg = true ->
  display_turn patient_scenario msg = [(scenario_label, patient_scenario)].
Proof.
  unfold is_injection, display_turn. intros [-> ->]%andb_true_iff. done.
Qed.

Lemma display_turn_submitter msg :
  is_submitter msg = true -> is_injection msg = false ->
  display_turn patient_scenario msg = [].
Proof.
  unfold is_injection, display_turn. intros ->. cbn. by intros ->.
Qed.

Lemma display_turn_agent msg :
  is_submitter msg = false ->
  strip (get msg "content" "") <> "" ->
  display_turn patient_scenario msg
  = [(bold (get msg "name" "Moderator"), strip (get msg "content" ""))].
Proof.
  unfold display_turn. intros -> Hc%truthy_true. cbn. by rewrite Hc.
Qed.

Lemma labelled_display_turn msg :
  length (labelled scenario_label (display_turn patient_scenario msg))
  = (if is_injection msg then 1 else 0)
    + (if bears_scenario_label msg then 1 else 0).
Proof.
  unfold display_turn, is_injection, bears_scenario_label, labelled.
  destruct (is_submitter msg); cbn.
  - destruct (contains header _); reflexivity.
  - destruct (truthy _); cbn; [|reflexivity].
    destruct (String.eqb _ _); reflexivity.
Qed.

Lemma labelled_flat_map chat_history :
  length (labelled scenario_label
            (flat_map (display_turn patient_scenario) chat_history))
  = length (List.filter is_injection chat_history)
    + length (List.filter bears_scenario_label chat_history).
Proof.
  induction chat_history as [|msg rest IH]; [reflexivity|].
  cbn [flat_map List.filter]. unfold labelled in *.
  rewrite List.filter_app, length_app, IH.
  pose proof (labelled_display_turn msg) as Hmsg. unfold labelled in Hmsg.
  rewrite Hmsg.
  destruct (is_injection msg), (bears_scenario_label msg); cbn [length]; lia.
Qed.

(** C4, as the code has it.  Every submitter Turn whose content holds
    the header adds one pair, labelled "Patient Scenario Input", with
    the original case text and not the templated message; a submitter
    Turn without the header adds nothing.  The display list thus has one
    such pair for each of these Turns (and one more for each agent Turn
    shown under a speaker name that is itself "Patient Scenario Input"):
    exactly one when the transcript has one injection and no such agent. *)
Theorem scenario_pair_per_injection (chat_history : list message)
    (d : list (string * string)) :
  format_history patient_scenario chat_history [] = Ok d ->
  (forall pre msg post,
     chat_history = pre ++ msg :: post ->
     is_submitter msg = true ->
     exists d1 d2,
       format_history patient_scenario pre [] = Ok d1
       /\ format_history patient_scenario post [] = Ok d2
       /\ (contains header (get msg "content" "") = true ->
           d = d1 ++ [("**Patient Scenario Input**", patient_scenario)] ++ d2)
       /\ (contains header (get msg "content" "") = false ->
           d = d1 ++ d2))
  /\ length (labelled "**Patient Scenario Input**" d)
     = length (List.filter is_injection chat_history)
       + length (List.filter bears_scenario_label chat_history).
Proof.
  intros Hd. split.
  - intros pre msg post -> Hsub.
    destruct (format_history_split _ _ _ _ Hd) as (d1 & d2 & H1 & H2 & ->).
    exists d1, d2. repeat split; try done.
    + intros Hh. rewrite display_turn_injection; [done|].
      unfold is_injection. by rewrite Hsub, Hh.
    + intros Hh. rewrite display_turn_submitter; [done|done|].
      unfold is_injection. by rewrite Hsub, Hh.
  - apply format_history_inv in Hd as [_ ->]. cbn [app].
    apply labelled_flat_map.
Qed.

(** C5. The display list is the result of one pass over the transcript
    from the front: each Turn adds its pairs after those of the Turns
    before it.  A Turn that is not the submitter's and whose trimmed
    content is not empty adds the pair of its speaker name, set in bold,
    and its trimmed content; a Turn whose content is empty or only
    whitespace adds nothing; without a name the label is "Moderator". *)
Theorem display_list_pass (chat_history : list message)
    (d : list (string * string)) :
  format_history patient_scenario chat_history [] = Ok d ->
  d = flat_map (display_turn patient_scenario) chat_history
  /\ forall pre msg post,
       chat_history = pre ++ msg :: post ->
       exists d1 d2,
         format_history patient_scenario pre [] = Ok d1
         /\ format_history patient_scenario post [] = Ok d2
         /\ (is_submitter msg = false ->
             strip (get msg "content" "") <> "" ->
             d = d1 ++ [("**" +:+ get msg "name" "Moderator" +:+ "**",
                          strip (get msg "content" ""))] ++ d2)
         /\ (strip (get msg "content" "") = "" -> d = d1 ++ d2)
         /\ (is_submitter msg = false ->
             msg !! "name" = None ->
             strip (get msg "content" "") <> "" ->
             d = d1 ++ [("**Moderator**", strip (get msg "content" ""))] ++ d2).
Proof.
  intros Hd. split.
  - by apply format_history_inv in Hd as [_ ->].
  - intros pre msg post ->.
    destruct (format_history_split _ _ _ _ Hd) as (d1 & d2 & H1 & H2 & ->).
    exists d1, d2. repeat split; try done.
    + intros Hsub Hc. by rewrite display_turn_agent.
    + intros Hc. by rewrite display_turn_blank.
    + intros Hsub Hname Hc. rewrite display_turn_agent by done.
      by rewrite (get_None _ _ _ Hname).
Qed.

(** C6, as the code has it.  The backward scan returns a result for
    every transcript, whatever fields its Turns lack.  The display loop
    returns a result for every transcript in which each Turn has a role
    and each submitter Turn has a content; a missing name or a missing
    content of another Turn only gives the label "Moderator" or an
    empty content.  A Turn without a role makes the loop raise
    [KeyError]. *)
Theorem formatter_total_with_subscripts (masoud_name : string)
    (chat_history : list message) :
  (exists final_plan, extract_final_plan masoud_name chat_history = Ok final_plan)
  /\ (forallb has_subscripts chat_history = true ->
      exists d, format_history patient_scenario chat_history [] = Ok d)
  /\ (forall msg, is_Some (msg !! "role") -> is_submitter msg = false ->
      has_subscripts msg = true)
  /\ (forall pre msg post,
        forallb has_subscripts pre = true -> msg !! "role" = None ->
        format_history patient_scenario (pre ++ msg :: post) []
        = Raise (KeyError "role"))
  /\ format_history patient_scenario [] [] = Ok []
  /\ extract_final_plan masoud_name [] = Ok fallback.
Proof.
  split; [apply final_plan_scan_total|].
  split; [intros H; eexists; by apply format_history_ok|].
  split.
  { intros msg [role Hrole]. unfold is_submitter, has_subscripts.
    rewrite Hrole. by intros ->. }
  split; [|done].
  intros pre msg post Hpre Hrole.
  assert (Hgo : forall acc, format_history patient_scenario (pre ++ msg :: post) acc
                            = Raise (KeyError "role")).
  { induction pre as [|x pre IH]; intros acc.
    - cbn [app format_history]. by rewrite (subscript_None _ _ Hrole).
    - cbn [forallb] in Hpre. apply andb_true_iff in Hpre as [Hx Hpre].
      cbn [app]. rewrite format_history_step by done. by apply IH. }
  apply Hgo.
Qed.

End DisplayClaims.

(** On the transcript with a second submitter Turn that quotes the
    header, the display list has two pairs under the scenario label. *)
Lemma scenario_pair_repeated :
  is_injection Sample.turn_case = true
  /\ is_injection Sample.turn_echo = true
  /\ format_history Sample.case_text Sample.transcript_echo []
     = Ok [ ("**Patient Scenario Input**", Sample.case_text);
            ("**James**", "Consider acute rheumatic fever.");
            ("**Patient Scenario Input**", Sample.case_text) ]
  /\ length (labelled "**Patient Scenario Input**"
               [ ("**Patient Scenario Input**", Sample.case_text);
                 ("**James**", "Consider acute rheumatic fever.");
                 ("**Patient Scenario Input**", Sample.case_text) ]) = 2.
Proof. repeat split; vm_compute; reflexivity. Qed.

Lemma scenario_pair_per_injection_witness :
  format_history Sample.case_text Sample.transcript []
  = Ok [ ("**Patient Scenario Input**", Sample.case_text);
         ("**James**", "Consider acute rheumatic fever.");
         ("**Moderator**", "Any other views?");
         ("**Masoud**", "--- FINAL PLAN ---" +:+ nl +:+ "Diagnosis: X") ]
  /\ length (labelled "**Patient Scenario Input**"
               [ ("**Patient Scenario Input**", Sample.case_text);
                 ("**James**", "Consider acute rheumatic fever.");
                 ("**Moderator**", "Any other views?");
                 ("**Masoud**", "--- FINAL PLAN ---" +:+ nl +:+ "Diagnosis: X") ])
     = length (List.filter is_injection Sample.transcript)
       + length (List.filter bears_scenario_label Sample.transcript).
Proof.
  split.
  - vm_compute. reflexivity.
  - apply (scenario_pair_per_injection Sample.case_text Sample.transcript).
    vm_compute. reflexivity.
Defined.

Lemma display_list_pass_witness :
  format_history Sample.case_text Sample.transcript []
  = Ok [ ("**Patient Scenario Input**", Sample.case_text);
         ("**James**", "Consider acute rheumatic fever.");
         ("**Moderator**", "Any other views?");
         ("**Masoud**", "--- FINAL PLAN ---" +:+ nl +:+ "Diagnosis: X") ]
  /\ [ ("**Patient Scenario Input**", Sample.case_text);
       ("**James**", "Consider acute rheumatic fever.");
       ("**Moderator**", "Any other views?");
       ("**Masoud**", "--- FINAL PLAN ---" +:+ nl +:+ "Diagnosis: X") ]
     = flat_map (display_turn Sample.case_text) Sample.transcript.
Proof.
  split.
  - vm_compute. reflexivity.
  - apply (display_list_pass Sample.case_text Sample.transcript).
    vm_compute. reflexivity.
Defined.

(** On a transcript with a message that has no role, the display loop
    raises [KeyError] for that key. *)
Lemma format_history_missing_role :
  Sample.turn_no_role !! "role" = None
  /\ format_history Sample.case_text Sample.transcript_no_role []
     = Raise (KeyError "role").
Proof. split; vm_compute; reflexivity. Qed.

(** * The orchestrator *)

Lemma contains_suffix sub pre : PyStr.contains sub (pre +:+ sub) = true.
Proof.
  rewrite <- (PyStrFacts.str_app_nil_r sub) at 2. apply PyStrFacts.contains_app.
Qed.

Lemma error_message_has_text w e :
  PyStr.contains (exc_str e) (error_message w e) = true.
Proof. unfold error_message. apply PyStrFacts.contains_app. Qed.

Lemma error_message_has_trace w e :
  PyStr.contains (format_exc w e) (error_message w e) = true.
Proof.
  unfold error_message. rewrite <- !PyStrFacts.str_app_assoc. apply contains_suffix.
Qed.

Section OrchestratorClaims.
Import PyStr PyStrFacts.

Variable w : World.
Variables (api_key : string) (max_rounds : Z) (patient_scenario : string).
Variables (james_name james_prompt david_name david_prompt : string).
Variables (jones_name jones_prompt masoud_name masoud_prompt : string).

Let the_plan : list call :=
  plan api_key max_rounds patient_scenario james_name james_prompt
    david_name david_prompt jones_name jones_prompt masoud_name masoud_prompt.

Let run : list call * output :=
  run_consultation w api_key max_rounds patient_scenario james_name james_prompt
    david_name david_prompt jones_name jones_prompt masoud_name masoud_prompt.

(** C7. With an empty credential, or with a case description that is
    empty or only whitespace, [run_consultation] makes no call and
    returns the empty display list with the message of the check that
    failed: the one about the API key when the key is empty, else the
    one about the patient scenario.  It returns; nothing is raised. *)
Theorem precondition_violation :
  api_key = "" \/ all_space patient_scenario = true ->
  run = ([], ([], if truthy api_key
                  then "**Error: Patient Scenario is empty.** Please enter the patient details to start."
                  else "**Error: API Key is missing.** Please go to the Settings tab and enter your Google API Key.")).
Proof.
  unfold run, run_consultation.
  destruct (truthy api_key) eqn:Hkey; cbn [negb]; [|done].
  intros [->|Hblank%strip_empty_iff]; [discriminate|].
  by rewrite Hblank.
Qed.

(** C8. When a call of the configuration, of the construction of the
    agents and the group chat, or of the exchange raises, the calls stop
    with that one, and [run_consultation] returns the empty display list
    with a diagnostic that holds the text of the exception and the stack
    trace; the same holds for whatever else the body raises. *)
Theorem exception_caught_and_reported (k : nat) (e : exception) :
  truthy api_key = true ->
  truthy (strip patient_scenario) = true ->
  first_raise w the_plan k e ->
  run = (take (S k) the_plan, ([], error_message w e))
  /\ contains (exc_str e) (error_message w e) = true
  /\ contains (format_exc w e) (error_message w e) = true
  /\ (forall log e',
        consultation w api_key max_rounds patient_scenario james_name james_prompt
          david_name david_prompt jones_name jones_prompt masoud_name masoud_prompt []
        = (log, Raise e') ->
        run = (log, ([], error_message w e'))).
Proof.
  intros Hkey Hscenario Hraise.
  split; [by apply run_consultation_raise|].
  split; [apply error_message_has_text|].
  split; [apply error_message_has_trace|].
  intros log e' Hbody. unfold run.
  rewrite run_consultation_body by done. by rewrite Hbody.
Qed.

(** C9, as the code has it.  The round limit is not checked against the
    range 2 to 10: whatever integer is given goes unchanged into the
    group chat as its maximum number of rounds, and the exchange is
    started.  The bounds 2 and 10 are those of the slider of the user
    interface. *)
Theorem round_limit_passed_through :
  truthy api_key = true ->
  truthy (strip patient_scenario) = true ->
  quiet w ->
  fst run = the_plan
  /\ In (GroupChat ["User_Proxy"; james_name; david_name; jones_name; masoud_name]
                   max_rounds) (fst run)
  /\ In (InitiateChat (initial_message masoud_name patient_scenario)) (fst run)
  /\ minimum max_rounds_slider = 2%Z
  /\ maximum max_rounds_slider = 10%Z.
Proof.
  intros Hkey Hscenario Hquiet. unfold run.
  rewrite run_consultation_quiet by done. cbn [fst].
  split; [done|]. unfold plan.
  split; [cbn [In]; tauto|]. split; [cbn [In]; tauto|]. done.
Qed.

End OrchestratorClaims.

Lemma precondition_violation_witness :
  ("AIza-demo-key" = "" \/ PyStr.all_space ("  " +:+ nl) = true)
  /\ Sample.run_with Sample.quiet_world "AIza-demo-key" 5 ("  " +:+ nl)
     = ([], ([], "**Error: Patient Scenario is empty.** Please enter the patient details to start.")).
Proof.
  assert (H : "AIza-demo-key" = "" \/ PyStr.all_space ("  " +:+ nl) = true)
    by (right; vm_compute; reflexivity).
  split; [exact H|].
  apply (precondition_violation Sample.quiet_world "AIza-demo-key" 5 ("  " +:+ nl)
           "James" "You are Dr. James." "David" "You are Dr. David."
           "Jones" "You are Dr. Jones." "Masoud" "You are Masoud, the moderator." H).
Defined.

Lemma failing_world_first_raise :
  first_raise Sample.failing_world
    (Sample.plan_with "AIza-demo-key" 5 Sample.case_text) 9
    (ExternalError "400 API key not valid.").
Proof.
  split.
  - eexists. split; vm_compute; reflexivity.
  - intros j c Hj Hc.
    do 9 (destruct j as [|j]; [vm_compute in Hc; injection Hc as <-; reflexivity|]).
    lia.
Defined.

Lemma exception_caught_and_reported_witness :
  (PyStr.truthy "AIza-demo-key" = true
   /\ PyStr.truthy (PyStr.strip Sample.case_text) = true)
  /\ Sample.run_with Sample.failing_world "AIza-demo-key" 5 Sample.case_text
     = (take 10 (Sample.plan_with "AIza-demo-key" 5 Sample.case_text),
        ([], error_message Sample.failing_world
               (ExternalError "400 API key not valid."))).
Proof.
  assert (Hkey : PyStr.truthy "AIza-demo-key" = true) by (vm_compute; reflexivity).
  assert (Hcase : PyStr.truthy (PyStr.strip Sample.case_text) = true)
    by (vm_compute; reflexivity).
  split; [by split|].
  exact (proj1 (exception_caught_and_reported Sample.failing_world "AIza-demo-key" 5
                  Sample.case_text
                  "James" "You are Dr. James." "David" "You are Dr. David."
                  "Jones" "You are Dr. Jones." "Masoud" "You are Masoud, the moderator."
                  9 (ExternalError "400 API key not valid.")
                  Hkey Hcase failing_world_first_raise)).
Defined.

(** With a round limit of 50, above the maximum of the slider, the
    exchange goes ahead: the group chat is built with 50 rounds and the
    run returns the display list and the plan. *)
Lemma round_limit_not_validated :
  Sample.run_with Sample.quiet_world "AIza-demo-key" 50 Sample.case_text
  = (Sample.plan_with "AIza-demo-key" 50 Sample.case_text,
     ([ ("**Patient Scenario Input**", Sample.case_text);
        ("**James**", "Consider acute rheumatic fever.");
        ("**Moderator**", "Any other views?");
        ("**Masoud**", "--- FINAL PLAN ---" +:+ nl +:+ "Diagnosis: X") ],
      "Diagnosis: X"))
  /\ In (GroupChat ["User_Proxy"; "James"; "David"; "Jones"; "Masoud"] 50)
        (Sample.plan_with "AIza-demo-key" 50 Sample.case_text)
  /\ (maximum max_rounds_slider < 50)%Z.
Proof.
  split; [vm_compute; reflexivity|]. split; [|reflexivity].
  unfold Sample.plan_with, plan. cbn [In]. tauto.
Qed.

Lemma round_limit_passed_through_witness :
  (PyStr.truthy "AIza-demo-key" = true
   /\ PyStr.truthy (PyStr.strip Sample.case_text) = true
   /\ quiet Sample.quiet_world)
  /\ fst (Sample.run_with Sample.quiet_world "AIza-demo-key" (-3) Sample.case_text)
     = Sample.plan_with "AIza-demo-key" (-3) Sample.case_text.
Proof.
  assert (Hkey : PyStr.truthy "AIza-demo-key" = true) by (vm_compute; reflexivity).
  assert (Hcase : PyStr.truthy (PyStr.strip Sample.case_text) = true)
    by (vm_compute; reflexivity).
  assert (Hq : quiet Sample.quiet_world) by (intros log c; reflexivity).
  split; [by repeat split|].
  exact (proj1 (round_limit_passed_through Sample.quiet_world "AIza-demo-key" (-3)
                  Sample.case_text
                  "James" "You are Dr. James." "David" "You are Dr. David."
                  "Jones" "You are Dr. Jones." "Masoud" "You are Masoud, the moderator."
                  Hkey Hcase Hq)).
Defined.

(** * Further properties of the formatter *)

Section StringsMore.
Import PyStr PyStrFacts.

Lemma contains_app_l sub a b : contains sub a = true -> contains sub (a +:+ b) = true.
Proof.
  intros (pre & post & ->)%contains_inv.
  rewrite !str_app_assoc. apply contains_app.
Qed.

Lemma contains_app_r sub a b : contains sub b = true -> contains sub (a +:+ b) = true.
Proof.
  intros (pre & post & ->)%contains_inv.
  rewrite <- str_app_assoc. apply contains_app.
Qed.

Lemma startswith_first sub s a c :
  first_char sub = Some a -> startswith sub (String c s) = true -> a = c.
Proof.
  destruct sub as [|a' sub]; [discriminate|]. cbn. intros [= ->].
  intros [H _]%andb_true_iff. by apply Ascii.eqb_eq.
Qed.

(** A string that begins with a character other than whitespace does
    not begin inside a run of whitespace. *)
Lemma find_after_space sub l a :
  first_char sub = Some a -> isspace a = false ->
  all_space l = true ->
  find sub (l +:+ sub) = Some (String.length l).
Proof.
  intros Ha Hsp. induction l as [|c l IH].
  - intros _. rewrite str_app_nil_l. rewrite <- (str_app_nil_r sub) at 2.
    apply find_self.
  - cbn [all_space]. intros [Hc Hl]%andb_true_iff.
    rewrite str_app_cons. cbn [find String.length].
    destruct (startswith sub (String c (l +:+ sub))) eqn:Hs.
    + apply (startswith_first _ _ _ _ Ha) in Hs. congruence.
    + by rewrite IH.
Qed.

Lemma contains_space sub r a :
  first_char sub = Some a -> isspace a = false ->
  all_space r = true -> contains sub r = false.
Proof.
  intros Ha Hsp. induction r as [|c r IH].
  - intros _. destruct sub; [discriminate|done].
  - cbn [all_space]. intros [Hc Hr]%andb_true_iff.
    rewrite contains_cons, IH by done. rewrite orb_false_r.
    destruct (startswith sub (String c r)) eqn:Hs; [|done].
    apply (startswith_first _ _ _ _ Ha) in Hs. congruence.
Qed.

Lemma contains_lstrip sub s a :
  first_char sub = Some a -> isspace a = false ->
  contains sub s = true -> contains sub (lstrip s) = true.
Proof.
  intros Ha Hsp. induction s as [|c s IH]; [done|].
  cbn [lstrip]. destruct (isspace c) eqn:Hc; [|done].
  rewrite contains_cons. intros [Hs|Hs]%orb_true_iff; [|by apply IH].
  apply (startswith_first _ _ _ _ Ha) in Hs. congruence.
Qed.

Lemma rstrip_cons_nonempty c s :
  rstrip s <> "" -> rstrip (String c s) = String c (rstrip s).
Proof. cbn [rstrip]. by destruct (rstrip s). Qed.

Lemma startswith_nonempty sub s :
  sub <> "" -> startswith sub s = true -> s <> "".
Proof. destruct sub; [done|]. by destruct s. Qed.

Lemma startswith_rstrip sub s b :
  last_char sub = Some b -> isspace b = false ->
  startswith sub s = true -> startswith sub (rstrip s) = true.
Proof.
  intros Hb Hsp. revert s. induction sub as [|a sub IH]; [discriminate|].
  intros [|c s]; [discriminate|]. cbn [startswith].
  intros [Hac Hrest]%andb_true_iff. apply Ascii.eqb_eq in Hac as <-.
  destruct sub as [|a' sub'].
  - cbn in Hb. injection Hb as ->. cbn [rstrip].
    destruct (rstrip s); [rewrite Hsp|]; cbn; by rewrite Ascii.eqb_refl.
  - assert (Hlast : last_char (String a' sub') = Some b) by exact Hb.
    specialize (IH Hlast s Hrest).
    rewrite rstrip_cons_nonempty.
    + change (Ascii.eqb a a && startswith (String a' sub') (rstrip s) = true).
      by rewrite Ascii.eqb_refl, IH.
    + by apply (startswith_nonempty (String a' sub')).
Qed.

Lemma contains_nonempty sub s :
  sub <> "" -> contains sub s = true -> s <> "".
Proof. intros Hsub Hc ->. apply contains_nil in Hc. done. Qed.

Lemma contains_rstrip sub s b :
  last_char sub = Some b -> isspace b = false ->
  contains sub s = true -> contains sub (rstrip s) = true.
Proof.
  intros Hb Hsp. assert (Hsub : sub <> "") by (intros ->; discriminate).
  induction s as [|c s IH]; [done|].
  rewrite contains_cons. intros [Hs|Hs]%orb_true_iff.
  - apply (startswith_rstrip _ _ _ Hb Hsp) in Hs.
    destruct (rstrip (String c s)); [by destruct sub|].
    by rewrite contains_cons, Hs.
  - specialize (IH Hs). rewrite rstrip_cons_nonempty.
    + rewrite contains_cons, IH. apply orb_true_r.
    + by apply (contains_nonempty sub).
Qed.

(** Trimming keeps every occurrence of a string that neither begins nor
    ends with whitespace. *)
Lemma contains_strip sub s a b :
  first_char sub = Some a -> isspace a = false ->
  last_char sub = Some b -> isspace b = false ->
  contains sub s = true -> contains sub (strip s) = true.
Proof.
  intros Ha Hsa Hb Hsb Hs. unfold strip.
  apply (contains_rstrip _ _ _ Hb Hsb). by apply (contains_lstrip _ _ _ Ha Hsa).
Qed.

End StringsMore.

Section DisplayMore.
Import PyStr PyStrFacts.

Variable patient_scenario : string.

Lemma format_history_stuck_key msg :
  has_subscripts msg = false ->
  exists key, forall rest acc,
    format_history patient_scenario (msg :: rest) acc = Raise (KeyError key).
Proof.
  unfold has_subscripts. cbn [format_history].
  destruct (msg !! "role") as [role|] eqn:Hrole.
  - rewrite (subscript_Some _ _ _ Hrole). cbn.
    destruct (String.eqb role "user"); [|discriminate].
    intros Hc%bool_decide_eq_false. exists "content". intros rest acc.
    rewrite subscript_None; [done|].
    destruct (msg !! "content") eqn:E; [|done]. destruct Hc. by eexists.
  - intros _. exists "role". intros rest acc.
    by rewrite (subscript_None _ _ Hrole).
Qed.

Lemma format_history_app_acc t1 t2 acc :
  format_history patient_scenario (t1 ++ t2) acc
  = match format_history patient_scenario t1 acc with
    | Ok d1 => format_history patient_scenario t2 d1
    | Raise e => Raise e
    end.
Proof.
  revert acc. induction t1 as [|msg t1 IH]; intros acc; [reflexivity|].
  cbn [app]. destruct (has_subscripts msg) eqn:Hmsg.
  - rewrite !format_history_step by done. apply IH.
  - destruct (format_history_stuck_key msg Hmsg) as [key Hkey].
    by rewrite !Hkey.
Qed.

Lemma format_history_acc t acc :
  format_history patient_scenario t acc
  = match format_history patient_scenario t [] with
    | Ok d => Ok (acc ++ d)
    | Raise e => Raise e
    end.
Proof.
  revert acc. induction t as [|msg t IH]; intros acc.
  - cbn. by rewrite app_nil_r.
  - destruct (has_subscripts msg) eqn:Hmsg.
    + rewrite !format_history_step by done. cbn [app].
      rewrite (IH (acc ++ _)), (IH (display_turn patient_scenario msg)).
      destruct (format_history patient_scenario t []); [|done].
      by rewrite app_assoc.
    + destruct (format_history_stuck_key msg Hmsg) as [key Hkey].
      by rewrite !Hkey.
Qed.

(** X1. The display list of two transcripts put end to end is the
    display list of the first followed by that of the second; when the
    loop raises on one of them, the whole raises the same error, that of
    the first when both do. *)
Theorem format_history_app (t1 t2 : list message) :
  format_history patient_scenario (t1 ++ t2) []
  = match format_history patient_scenario t1 [] with
    | Ok d1 =>
        match format_history patient_scenario t2 [] with
        | Ok d2 => Ok (d1 ++ d2)
        | Raise e => Raise e
        end
    | Raise e => Raise e
    end.
Proof.
  rewrite format_history_app_acc.
  destruct (format_history patient_scenario t1 []) as [d1|e]; [|done].
  apply format_history_acc.
Qed.

Lemma display_turn_length msg :
  length (display_turn patient_scenario msg) <= 1.
Proof.
  unfold display_turn.
  destruct (is_submitter msg); [destruct (contains _ _)|cbn; destruct (truthy _)];
    cbn; lia.
Qed.

(** X2. Every Turn adds at most one pair, so the display list is no
    longer than the transcript; and every pair is either the scenario
    label with the case text as given, or a speaker name between two
    pairs of asterisks with a content that is not empty and has no
    whitespace at either end. *)
Theorem display_entries_well_formed (chat_history : list message)
    (d : list (string * string)) :
  format_history patient_scenario chat_history [] = Ok d ->
  length d <= length chat_history
  /\ Forall (fun entry =>
       entry = ("**Patient Scenario Input**", patient_scenario)
       \/ exists name,
            fst entry = "**" +:+ name +:+ "**"
            /\ snd entry <> ""
            /\ (forall c, first_char (snd entry) = Some c -> isspace c = false)
            /\ (forall c, last_char (snd entry) = Some c -> isspace c = false)) d.
Proof.
  intros [_ ->]%format_history_inv. cbn [app]. split.
  - induction chat_history as [|msg rest IH]; [done|].
    cbn [flat_map length]. rewrite length_app.
    pose proof (display_turn_length msg). lia.
  - induction chat_history as [|msg rest IH]; [constructor|].
    cbn [flat_map]. apply Forall_app. split; [|exact IH].
    unfold display_turn. destruct (is_submitter msg).
    + destruct (contains _ _); [|constructor].
      constructor; [by left|constructor].
    + cbn. destruct (truthy _) eqn:Hc; [|constructor].
      constructor; [|constructor].
      right. exists (get msg "name" "Moderator"). cbn [fst snd].
      destruct (strip_spec (get msg "content" "")) as (l & r & _ & _ & _ & Hf & Hl).
      split; [done|]. split; [by apply truthy_true|]. by split.
Qed.

Ltac find_part :=
  first [ apply contains_app_l; vm_compute; reflexivity
        | apply contains_app_r; find_part ].

Lemma initial_message_header masoud_name scenario :
  contains header (initial_message masoud_name scenario) = true.
Proof. unfold initial_message. find_part. Qed.

(** X3. The opening message always holds the header the display loop
    looks for, whatever the moderator's name and the case text are, and
    it holds the case text; so a submitter Turn with the opening message
    as content is shown as the scenario pair with the case text alone. *)
Theorem opening_message_is_injection
    (masoud_name scenario : string) (msg : message) :
  msg !! "role" = Some "user" ->
  msg !! "content" = Some (initial_message masoud_name scenario) ->
  contains "PATIENT SCENARIO" (initial_message masoud_name scenario) = true
  /\ contains scenario (initial_message masoud_name scenario) = true
  /\ format_history patient_scenario [msg] []
     = Ok [("**Patient Scenario Input**", patient_scenario)].
Proof.
  intros Hrole Hcontent.
  split; [apply initial_message_header|]. split.
  - unfold initial_message. do 19 apply contains_app_r.
    apply (contains_app scenario "").
  - cbn [format_history].
    rewrite (subscript_Some _ _ _ Hrole). cbn.
    rewrite (subscript_Some _ _ _ Hcontent). cbn.
    by rewrite initial_message_header.
Qed.

(** X4. A Turn of the moderator that holds the marker, under a role other
    than the submitter's, is shown in the display list with the marker
    still in its content: only the final plan has the marker removed. *)
Theorem plan_turn_shown_with_marker
    (masoud_name role c : string) (msg : message) :
  msg !! "role" = Some role ->
  String.eqb role "user" = false ->
  msg !! "name" = Some masoud_name ->
  msg !! "content" = Some c ->
  contains "--- FINAL PLAN ---" c = true ->
  format_history patient_scenario [msg] []
  = Ok [("**" +:+ masoud_name +:+ "**", strip c)]
  /\ contains "--- FINAL PLAN ---" (strip c) = true.
Proof.
  intros Hrole Hagent Hname Hcontent Hmarker.
  assert (Hkept : contains marker (strip c) = true).
  { apply (contains_strip marker c "-" "-"); done. }
  split; [|exact Hkept].
  cbn [format_history]. rewrite (subscript_Some _ _ _ Hrole). cbn.
  rewrite Hagent, (get_Some _ _ _ _ Hname), (get_Some _ _ _ _ Hcontent).
  assert (Hne : truthy (strip c) = true).
  { apply truthy_true. by apply (contains_nonempty marker). }
  by rewrite Hne.
Qed.

Lemma same_fields_display a b :
  same_fields ["role"; "name"; "content"] a b ->
  forall rest acc,
    format_history patient_scenario (a :: rest) acc
    = match subscript b "role" with
      | Ok role =>
          if String.eqb role "user" then
            match subscript b "content" with
            | Ok content =>
                if contains header content
                then format_history patient_scenario rest
                       (acc ++ [(scenario_label, patient_scenario)])
                else format_history patient_scenario rest acc
            | Raise e => Raise e
            end
          else
            if truthy (strip (get b "content" ""))
            then format_history patient_scenario rest
                   (acc ++ [(bold (get b "name" "Moderator"),
                             strip (get b "content" ""))])
            else format_history patient_scenario rest acc
      | Raise e => Raise e
      end.
Proof.
  unfold same_fields. rewrite !Forall_cons. intros (Hr & Hn & Hc & _) rest acc.
  cbn [format_history]. unfold subscript, get. rewrite Hr, Hn, Hc.
  destruct (b !! "role"); [|done]. cbn.
  destruct (String.eqb _ _); [|done].
  destruct (b !! "content"); done.
Qed.

(** X5. The display list depends on the role, the name and the content
    of each message only: two transcripts whose messages agree on these
    three keys, whatever other keys they hold, give the same result, be
    it a display list or an error. *)
Theorem display_reads_three_fields (t1 t2 : list message) :
  Forall2 (same_fields ["role"; "name"; "content"]) t1 t2 ->
  format_history patient_scenario t1 [] = format_history patient_scenario t2 [].
Proof.
  intros H. generalize (@nil (string * string)).
  induction H as [|a b t1 t2 Hab _ IH]; intros acc; [done|].
  rewrite (same_fields_display a b Hab).
  assert (Hbb : same_fields ["role"; "name"; "content"] b b)
    by (unfold same_fields; rewrite !Forall_cons; done).
  rewrite (same_fields_display b b Hbb).
  destruct (subscript b "role"); [|done].
  destruct (String.eqb _ _).
  - destruct (subscript b "content"); [|done]. destruct (contains _ _); apply IH.
  - destruct (truthy _); apply IH.
Qed.

End DisplayMore.

(** * Further properties of the backward scan *)

Section FinalPlanMore.
Import PyStr PyStrFacts.

Variable masoud_name : string.

(** X6. The plan is either the fallback, when no Turn passes the test,
    or it comes from a message of the transcript that bears the
    moderator's name and holds the marker: no other message can supply
    it. *)
Theorem final_plan_origin (chat_history : list message) :
  (no_final_plan masoud_name chat_history = true
   /\ extract_final_plan masoud_name chat_history
      = Ok "Final plan not generated or found in the conversation.")
  \/ (exists msg c,
        In msg chat_history
        /\ msg !! "name" = Some masoud_name
        /\ msg !! "content" = Some c
        /\ contains "--- FINAL PLAN ---" c = true
        /\ extract_final_plan masoud_name chat_history
           = Ok (strip (replace "--- FINAL PLAN ---" "" c))).
Proof.
  destruct (no_final_plan masoud_name chat_history) eqn:Hany.
  - left. split; [done|]. by apply extract_none.
  - right.
    destruct (last_final_plan_split _ _ Hany) as (pre & late & post & -> & Hlate & Hpost).
    destruct (is_final_plan_fields _ _ Hlate) as (c & Hc & Hm & Hn).
    exists late, c. split; [apply in_or_app; right; by left|].
    split; [done|]. split; [done|]. split; [done|].
    rewrite (extract_last _ _ _ _ Hlate Hpost). by rewrite (get_Some _ _ _ _ Hc).
Qed.

Lemma same_fields_final_plan a b :
  same_fields ["name"; "content"] a b ->
  is_final_plan masoud_name a = is_final_plan masoud_name b
  /\ subscript a "content" = subscript b "content".
Proof.
  unfold same_fields. rewrite !Forall_cons. intros (Hn & Hc & _).
  unfold is_final_plan, name_is, get, subscript. by rewrite Hn, Hc.
Qed.

Lemma final_plan_scan_same msgs1 msgs2 final_plan :
  Forall2 (same_fields ["name"; "content"]) msgs1 msgs2 ->
  final_plan_scan masoud_name msgs1 final_plan
  = final_plan_scan masoud_name msgs2 final_plan.
Proof.
  induction 1 as [|a b t1 t2 Hab _ IH]; [done|].
  cbn [final_plan_scan].
  destruct (same_fields_final_plan a b Hab) as [-> ->].
  by rewrite IH.
Qed.

(** X7. The plan depends on the name and the content of each message
    only; the role is not looked at, so a message under any role, the
    submitter's too, supplies the plan when it bears the moderator's
    name and holds the marker. *)
Theorem final_plan_reads_two_fields (t1 t2 : list message) :
  Forall2 (same_fields ["name"; "content"]) t1 t2 ->
  extract_final_plan masoud_name t1 = extract_final_plan masoud_name t2.
Proof.
  intros H. unfold extract_final_plan. apply final_plan_scan_same.
  rewrite !rev_alt. by apply Forall2_reverse.
Qed.

(** X8. When the content of the Turn found is the marker alone, with
    nothing but whitespace around it, the plan is the empty string and
    not the fallback text. *)
Theorem marker_alone_gives_empty_plan
    (pre post : list message) (msg : message) (l r : string) :
  msg !! "name" = Some masoud_name ->
  msg !! "content" = Some (l +:+ "--- FINAL PLAN ---" +:+ r) ->
  all_space l = true ->
  all_space r = true ->
  no_final_plan masoud_name post = true ->
  extract_final_plan masoud_name (pre ++ msg :: post) = Ok "".
Proof.
  intros Hname Hcontent Hl Hr Hpost.
  assert (Hmsg : is_final_plan masoud_name msg = true).
  { apply (is_final_plan_intro _ _ _ Hname Hcontent). apply contains_app. }
  rewrite (extract_last _ _ _ _ Hmsg Hpost), (get_Some _ _ _ _ Hcontent).
  change (l +:+ "--- FINAL PLAN ---" +:+ r) with (join marker [l; r]).
  rewrite replace_join; [|done|].
  - cbn [join]. rewrite str_app_nil_l. f_equal.
    apply strip_empty_iff. by rewrite all_space_app, Hl, Hr.
  - cbn [scan_split].
    rewrite (find_after_space marker l "-") by done.
    rewrite Nat.eqb_refl, (contains_space marker r "-") by done. done.
Qed.

End FinalPlanMore.

(** * Further properties of the orchestrator *)

Lemma perform_all_cases w cs : forall log,
  (perform_all w cs log = (log ++ cs, Ok tt)
   /\ forall j c, cs !! j = Some c -> raises w (log ++ take j cs) c = None)
  \/ (exists k c e,
        cs !! k = Some c
        /\ raises w (log ++ take k cs) c = Some e
        /\ forall j c', j < k -> cs !! j = Some c' ->
                        raises w (log ++ take j cs) c' = None).
Proof.
  induction cs as [|c0 cs IH]; intros log.
  - left. split; [cbn; by rewrite app_nil_r|]. intros j c Hj. done.
  - destruct (raises w log c0) as [e|] eqn:H0.
    + right. exists 0, c0, e. cbn. rewrite app_nil_r.
      split; [done|]. split; [done|]. intros j c' Hj. lia.
    + destruct (IH (log ++ [c0])) as [[Hrun Hnone]|(k & c & e & Hk & He & Hbefore)].
      * left. split.
        -- cbn [perform_all]. unfold mbind, M_bind, perform. rewrite H0.
           by rewrite Hrun, <- app_assoc.
        -- intros [|j] c Hj; cbn in Hj |- *.
           ++ injection Hj as <-. by rewrite app_nil_r.
           ++ specialize (Hnone j c Hj). by rewrite <- app_assoc in Hnone.
      * right. exists (S k), c, e. cbn. rewrite <- app_assoc in He.
        split; [done|]. split; [done|].
        intros [|j] c' Hj Hc'; cbn in Hc' |- *.
        -- injection Hc' as <-. by rewrite app_nil_r.
        -- specialize (Hbefore j c' ltac:(lia) Hc').
           by rewrite <- app_assoc in Hbefore.
Qed.

Lemma format_history_raise_key p t acc e :
  format_history p t acc = Raise e ->
  e = KeyError "role" \/ e = KeyError "content".
Proof.
  revert acc. induction t as [|msg rest IH]; intros acc; [discriminate|].
  cbn [format_history]. unfold subscript.
  destruct (msg !! "role") as [role|]; cbn; [|intros [= <-]; by left].
  destruct (String.eqb role "user").
  - destruct (msg !! "content") as [c|]; cbn; [|intros [= <-]; by right].
    destruct (PyStr.contains header c); apply IH.
  - destruct (PyStr.truthy _); apply IH.
Qed.

Section RunMore.
Import PyStr PyStrFacts.

Variable w : World.
Variables (api_key : string) (max_rounds : Z) (patient_scenario : string).
Variables (james_name james_prompt david_name david_prompt : string).
Variables (jones_name jones_prompt masoud_name masoud_prompt : string).

Let the_plan : list call :=
  plan api_key max_rounds patient_scenario james_name james_prompt
    david_name david_prompt jones_name jones_prompt masoud_name masoud_prompt.

Let run : list call * output :=
  run_consultation w api_key max_rounds patient_scenario james_name james_prompt
    david_name david_prompt jones_name jones_prompt masoud_name masoud_prompt.

(** When the checks pass and no call raises, the messages of the group
    chat decide the result. *)
Lemma run_consultation_never_raises :
  truthy api_key = true ->
  truthy (strip patient_scenario) = true ->
  never_raises w the_plan ->
  run = (the_plan,
         match format_history patient_scenario (messages w the_plan) [] with
         | Ok d =>
             match extract_final_plan masoud_name (messages w the_plan) with
             | Ok final_plan => (d, final_plan)
             | Raise e => ([], error_message w e)
             end
         | Raise e => ([], error_message w e)
         end).
Proof.
  intros Hkey Hscenario Hnone. unfold run.
  rewrite run_consultation_body, consultation_plan by done.
  destruct (perform_all_cases w the_plan []) as [[Hrun _]|(k & c & e & Hk & He & _)].
  - unfold the_plan in Hrun. rewrite Hrun. cbn [app].
    rewrite process_output_eq. unfold mbind, result_bind.
    destruct (format_history _ _ _); [|done].
    destruct (extract_final_plan _ _); done.
  - cbn [app] in He. rewrite (Hnone k c Hk) in He. discriminate.
Qed.

(** X9. [run_consultation] ends in one of five ways and always returns:
    an empty key; a blank case text; a call that raises, after which no
    other call is made; a transcript on which the display loop raises
    [KeyError]; or the display list with the plan.  In the first four
    the display list is empty; the calls made are always the first ones
    of the plan, in order. *)
Theorem run_consultation_outcomes :
  (api_key = "" /\ run = ([], ([], missing_key_message)))
  \/ (api_key <> "" /\ strip patient_scenario = ""
      /\ run = ([], ([], empty_scenario_message)))
  \/ (api_key <> "" /\ strip patient_scenario <> ""
      /\ exists k e,
           first_raise w the_plan k e
           /\ run = (take (S k) the_plan, ([], error_message w e)))
  \/ (api_key <> "" /\ strip patient_scenario <> ""
      /\ never_raises w the_plan
      /\ exists key,
           (key = "role" \/ key = "content")
           /\ format_history patient_scenario (messages w the_plan) []
              = Raise (KeyError key)
           /\ run = (the_plan, ([], error_message w (KeyError key))))
  \/ (api_key <> "" /\ strip patient_scenario <> ""
      /\ never_raises w the_plan
      /\ exists d final_plan,
           format_history patient_scenario (messages w the_plan) [] = Ok d
           /\ extract_final_plan masoud_name (messages w the_plan) = Ok final_plan
           /\ run = (the_plan, (d, final_plan))).
Proof.
  destruct (truthy api_key) eqn:Hkey.
  2:{ left. apply truthy_false in Hkey. split; [done|].
      unfold run, run_consultation. by rewrite Hkey. }
  right. assert (Hk : api_key <> "") by by apply truthy_true.
  destruct (truthy (strip patient_scenario)) eqn:Hscenario.
  2:{ left. apply truthy_false in Hscenario. split; [done|]. split; [done|].
      unfold run, run_consultation. by rewrite Hkey, Hscenario. }
  right. assert (Hs : strip patient_scenario <> "") by by apply truthy_true.
  destruct (perform_all_cases w the_plan []) as [[_ Hnone]|(k & c & e & Hc & He & Hbefore)].
  - right. pose proof (run_consultation_never_raises Hkey Hscenario Hnone) as Hrun.
    destruct (format_history patient_scenario (messages w the_plan) []) as [d|e] eqn:Hf.
    + right. split; [done|]. split; [done|]. split; [exact Hnone|].
      destruct (final_plan_scan_total masoud_name (rev (messages w the_plan)) fallback)
        as [final_plan Hfp].
      fold (extract_final_plan masoud_name (messages w the_plan)) in Hfp.
      exists d, final_plan. by rewrite Hfp in Hrun.
    + left. split; [done|]. split; [done|]. split; [exact Hnone|].
      destruct (format_history_raise_key _ _ _ _ Hf) as [->| ->];
        [exists "role"|exists "content"]; (split; [tauto|done]).
  - left. split; [done|]. split; [done|]. exists k, e.
    assert (Hfirst : first_raise w the_plan k e).
    { split; [by exists c|exact Hbefore]. }
    split; [exact Hfirst|]. by apply run_consultation_raise.
Qed.

(** X10. When the group chat holds a message without a role, after
    messages the loop accepts, the run makes all its calls and then
    returns the empty display list with a diagnostic that names the
    key: the plan is not returned, whatever the messages after it are. *)
Theorem missing_role_reported (pre post : list message) (msg : message) :
  truthy api_key = true ->
  truthy (strip patient_scenario) = true ->
  never_raises w the_plan ->
  messages w the_plan = pre ++ msg :: post ->
  forallb has_subscripts pre = true ->
  msg !! "role" = None ->
  run = (the_plan, ([], error_message w (KeyError "role")))
  /\ contains "'role'" (error_message w (KeyError "role")) = true.
Proof.
  intros Hkey Hscenario Hnone Hmsgs Hpre Hrole.
  split; [|apply (error_message_has_text w (KeyError "role"))].
  rewrite (run_consultation_never_raises Hkey Hscenario Hnone), Hmsgs.
  rewrite format_history_app_acc, format_history_ok by done.
  cbn [format_history]. by rewrite (subscript_None _ _ Hrole).
Qed.

(** The display list returned is empty, or it is that of the messages
    of the group chat after a run whose case text passed the check. *)
Lemma run_display_source :
  fst (snd run) = []
  \/ exists d,
       format_history patient_scenario (messages w the_plan) [] = Ok d
       /\ truthy (strip patient_scenario) = true
       /\ fst (snd run) = d.
Proof.
  destruct (truthy api_key) eqn:Hkey.
  2:{ left. unfold run, run_consultation. by rewrite Hkey. }
  destruct (truthy (strip patient_scenario)) eqn:Hscenario.
  2:{ left. unfold run, run_consultation. by rewrite Hkey, Hscenario. }
  destruct (perform_all_cases w the_plan []) as [[_ Hnone]|(k & c & e & Hc & He & Hbefore)].
  - rewrite (run_consultation_never_raises Hkey Hscenario Hnone).
    destruct (format_history patient_scenario (messages w the_plan) []) as [d|e];
      [|by left].
    destruct (extract_final_plan _ _); [|by left].
    right. by exists d.
  - left. unfold run.
    rewrite (run_consultation_raise w api_key max_rounds patient_scenario
               james_name james_prompt david_name david_prompt
               jones_name jones_prompt masoud_name masoud_prompt
               Hkey Hscenario k e); [done|].
    split; [by exists c|exact Hbefore].
Qed.

(** X11. No pair of the display list that [run_consultation] returns
    has an empty content: the case text shown has passed the check of
    the case description, and a Turn is shown only when its trimmed
    content is not empty. *)
Theorem returned_contents_not_empty :
  Forall (fun entry => snd entry <> "") (fst (snd run)).
Proof.
  destruct run_display_source as [Hempty|(d & Hd & Hs & Hrun)].
  - rewrite Hempty. constructor.
  - rewrite Hrun. apply format_history_inv in Hd as [_ ->]. cbn [app].
    clear Hrun.
    induction (messages w the_plan) as [|msg rest IH]; [constructor|].
    cbn [flat_map]. apply Forall_app. split; [|exact IH].
    unfold display_turn. destruct (is_submitter msg).
    + destruct (contains _ _); [|constructor].
      constructor; [|constructor]. cbn. intros ->. by cbn in Hs.
    + cbn. destruct (truthy (strip (get msg "content" ""))) eqn:Hc; [|constructor].
      constructor; [|constructor]. cbn. by apply truthy_true.
Qed.

End RunMore.

Lemma display_entries_well_formed_witness :
  format_history Sample.case_text Sample.transcript []
  = Ok [ ("**Patient Scenario Input**", Sample.case_text);
         ("**James**", "Consider acute rheumatic fever.");
         ("**Moderator**", "Any other views?");
         ("**Masoud**", "--- FINAL PLAN ---" +:+ nl +:+ "Diagnosis: X") ]
  /\ length [ ("**Patient Scenario Input**", Sample.case_text);
              ("**James**", "Consider acute rheumatic fever.");
              ("**Moderator**", "Any other views?");
              ("**Masoud**", "--- FINAL PLAN ---" +:+ nl +:+ "Diagnosis: X") ]
     <= length Sample.transcript.
Proof.
  split.
  - vm_compute. reflexivity.
  - apply (display_entries_well_formed Sample.case_text Sample.transcript).
    vm_compute. reflexivity.
Defined.

Lemma opening_message_is_injection_witness :
  (Sample.turn_case !! "role" = Some "user"
   /\ Sample.turn_case !! "content"
      = Some (initial_message "Masoud" Sample.case_text))
  /\ format_history Sample.case_text [Sample.turn_case] []
     = Ok [("**Patient Scenario Input**", Sample.case_text)].
Proof.
  assert (Hrole : Sample.turn_case !! "role" = Some "user")
    by (vm_compute; reflexivity).
  assert (Hcontent : Sample.turn_case !! "content"
                     = Some (initial_message "Masoud" Sample.case_text))
    by (vm_compute; reflexivity).
  split; [by split|].
  exact (proj2 (proj2 (opening_message_is_injection Sample.case_text "Masoud"
                         Sample.case_text Sample.turn_case Hrole Hcontent))).
Defined.

Lemma plan_turn_shown_with_marker_witness :
  (Sample.turn_plan !! "role" = Some "assistant"
   /\ String.eqb "assistant" "user" = false
   /\ Sample.turn_plan !! "name" = Some "Masoud"
   /\ Sample.turn_plan !! "content"
      = Some ("--- FINAL PLAN ---" +:+ nl +:+ "Diagnosis: X")
   /\ PyStr.contains "--- FINAL PLAN ---"
        ("--- FINAL PLAN ---" +:+ nl +:+ "Diagnosis: X") = true)
  /\ format_history Sample.case_text [Sample.turn_plan] []
     = Ok [("**" +:+ "Masoud" +:+ "**",
            PyStr.strip ("--- FINAL PLAN ---" +:+ nl +:+ "Diagnosis: X"))]
  /\ PyStr.contains "--- FINAL PLAN ---"
       (PyStr.strip ("--- FINAL PLAN ---" +:+ nl +:+ "Diagnosis: X")) = true.
Proof.
  split; [repeat split; vm_compute; reflexivity|].
  apply (plan_turn_shown_with_marker Sample.case_text "Masoud" "assistant"
           ("--- FINAL PLAN ---" +:+ nl +:+ "Diagnosis: X") Sample.turn_plan);
    vm_compute; reflexivity.
Defined.

Lemma display_reads_three_fields_witness :
  Forall2 (same_fields ["role"; "name"; "content"])
    [Sample.turn_james] [Sample.turn_james_annotated]
  /\ format_history Sample.case_text [Sample.turn_james] []
     = format_history Sample.case_text [Sample.turn_james_annotated] [].
Proof.
  assert (H : Forall2 (same_fields ["role"; "name"; "content"])
                [Sample.turn_james] [Sample.turn_james_annotated]).
  { constructor; [|constructor]. unfold same_fields.
    constructor; [vm_compute; reflexivity|].
    constructor; [vm_compute; reflexivity|].
    constructor; [vm_compute; reflexivity|]. constructor. }
  split; [exact H|].
  exact (display_reads_three_fields Sample.case_text _ _ H).
Defined.

Lemma final_plan_reads_two_fields_witness :
  Forall2 (same_fields ["name"; "content"])
    [Sample.turn_case; Sample.turn_plan] [Sample.turn_case; Sample.turn_plan_tool]
  /\ extract_final_plan "Masoud" [Sample.turn_case; Sample.turn_plan]
     = extract_final_plan "Masoud" [Sample.turn_case; Sample.turn_plan_tool].
Proof.
  assert (H : Forall2 (same_fields ["name"; "content"])
                [Sample.turn_case; Sample.turn_plan]
                [Sample.turn_case; Sample.turn_plan_tool]).
  { constructor; [|constructor; [|constructor]]; unfold same_fields;
      (constructor; [vm_compute; reflexivity|]);
      (constructor; [vm_compute; reflexivity|]); constructor. }
  split; [exact H|].
  exact (final_plan_reads_two_fields "Masoud" _ _ H).
Defined.

Lemma marker_alone_gives_empty_plan_witness :
  (Sample.turn_marker_only !! "name" = Some "Masoud"
   /\ Sample.turn_marker_only !! "content"
      = Some ((" " +:+ nl) +:+ "--- FINAL PLAN ---" +:+ nl)
   /\ PyStr.all_space (" " +:+ nl) = true
   /\ PyStr.all_space nl = true
   /\ no_final_plan "Masoud" [Sample.turn_quote] = true)
  /\ extract_final_plan "Masoud"
       ([Sample.turn_case; Sample.turn_plan] ++ Sample.turn_marker_only
          :: [Sample.turn_quote])
     = Ok "".
Proof.
  split; [repeat split; vm_compute; reflexivity|].
  apply (marker_alone_gives_empty_plan "Masoud"
           [Sample.turn_case; Sample.turn_plan] [Sample.turn_quote]
           Sample.turn_marker_only (" " +:+ nl) nl);
    vm_compute; reflexivity.
Defined.

Lemma missing_role_reported_witness :
  (PyStr.truthy "AIza-demo-key" = true
   /\ PyStr.truthy (PyStr.strip Sample.case_text) = true
   /\ never_raises Sample.world_no_role
        (Sample.plan_with "AIza-demo-key" 5 Sample.case_text)
   /\ messages Sample.world_no_role
        (Sample.plan_with "AIza-demo-key" 5 Sample.case_text)
      = [Sample.turn_case] ++ Sample.turn_no_role :: [Sample.turn_plan]
   /\ forallb has_subscripts [Sample.turn_case] = true
   /\ Sample.turn_no_role !! "role" = None)
  /\ Sample.run_with Sample.world_no_role "AIza-demo-key" 5 Sample.case_text
     = (Sample.plan_with "AIza-demo-key" 5 Sample.case_text,
        ([], error_message Sample.world_no_role (KeyError "role"))).
Proof.
  assert (Hkey : PyStr.truthy "AIza-demo-key" = true) by (vm_compute; reflexivity).
  assert (Hcase : PyStr.truthy (PyStr.strip Sample.case_text) = true)
    by (vm_compute; reflexivity).
  assert (Hnone : never_raises Sample.world_no_role
                    (Sample.plan_with "AIza-demo-key" 5 Sample.case_text))
    by (intros j c _; reflexivity).
  assert (Hmsgs : messages Sample.world_no_role
                    (Sample.plan_with "AIza-demo-key" 5 Sample.case_text)
                  = [Sample.turn_case] ++ Sample.turn_no_role :: [Sample.turn_plan])
    by reflexivity.
  assert (Hpre : forallb has_subscripts [Sample.turn_case] = true)
    by (vm_compute; reflexivity).
  assert (Hrole : Sample.turn_no_role !! "role" = None) by (vm_compute; reflexivity).
  split; [by repeat split|].
  exact (proj1 (missing_role_reported Sample.world_no_role "AIza-demo-key" 5
                  Sample.case_text
                  "James" "You are Dr. James." "David" "You are Dr. David."
                  "Jones" "You are Dr. Jones." "Masoud" "You are Masoud, the moderator."
                  [Sample.turn_case] [Sample.turn_plan] Sample.turn_no_role
                  Hkey Hcase Hnone Hmsgs Hpre Hrole)).
Defined.

Section RunEnvironment.
Import PyStr PyStrFacts.

Variable w : World.
Variables (api_key : string) (max_rounds : Z) (patient_scenario : string).
Variables (james_name james_prompt david_name david_prompt : string).
Variables (jones_name jones_prompt masoud_name masoud_prompt : string).

Let the_plan : list call :=
  plan api_key max_rounds patient_scenario james_name james_prompt
    david_name david_prompt jones_name jones_prompt masoud_name masoud_prompt.

Let run : list call * output :=
  run_consultation w api_key max_rounds patient_scenario james_name james_prompt
    david_name david_prompt jones_name jones_prompt masoud_name masoud_prompt.

(** X12. Every run that passes the two checks begins by writing the key
    into the process environment under GOOGLE_API_KEY, whether the run
    then succeeds or fails; the calls that follow are those of the plan,
    in order, up to the first that raises. *)
Theorem credential_set_first :
  truthy api_key = true ->
  truthy (strip patient_scenario) = true ->
  exists n,
    1 <= n <= 10
    /\ fst run = take n the_plan
    /\ fst run !! 0 = Some (SetEnviron "GOOGLE_API_KEY" api_key).
Proof.
  intros Hkey Hscenario.
  destruct (perform_all_cases w the_plan []) as [[_ Hnone]|(k & c & e & Hc & He & Hbefore)].
  - exists 10. unfold run.
    rewrite (run_consultation_never_raises w api_key max_rounds patient_scenario
               james_name james_prompt david_name david_prompt
               jones_name jones_prompt masoud_name masoud_prompt
               Hkey Hscenario Hnone).
    split; [lia|]. by split.
  - exists (S k). unfold run.
    rewrite (run_consultation_raise w api_key max_rounds patient_scenario
               james_name james_prompt david_name david_prompt
               jones_name jones_prompt masoud_name masoud_prompt
               Hkey Hscenario k e) by (split; [by exists c|exact Hbefore]).
    cbn [fst]. split; [|by split].
    apply lookup_lt_Some in Hc. unfold the_plan, plan in Hc. cbn in Hc. lia.
Qed.

End RunEnvironment.

Lemma credential_set_first_witness :
  (PyStr.truthy "AIza-demo-key" = true
   /\ PyStr.truthy (PyStr.strip Sample.case_text) = true)
  /\ exists n,
       1 <= n <= 10
       /\ fst (Sample.run_with Sample.failing_world "AIza-demo-key" 5 Sample.case_text)
          = take n (Sample.plan_with "AIza-demo-key" 5 Sample.case_text)
       /\ fst (Sample.run_with Sample.failing_world "AIza-demo-key" 5 Sample.case_text)
            !! 0
          = Some (SetEnviron "GOOGLE_API_KEY" "AIza-demo-key").
Proof.
  assert (Hkey : PyStr.truthy "AIza-demo-key" = true) by (vm_compute; reflexivity).
  assert (Hcase : PyStr.truthy (PyStr.strip Sample.case_text) = true)
    by (vm_compute; reflexivity).
  split; [by split|].
  exact (credential_set_first Sample.failing_world "AIza-demo-key" 5
           Sample.case_text
           "James" "You are Dr. James." "David" "You are Dr. David."
           "Jones" "You are Dr. Jones." "Masoud" "You are Masoud, the moderator."
           Hkey Hcase).
Defined.
